(** * Service follow-up: the record workflow, the rating constraint and the
      reminder scan

    A shallow embedding of [addons/service_followup/models/followup.py]:
    the [service.followup] model with its three workflow actions, the
    [_check_rating_range] constraint and the [cron_followup_reminder]
    scheduled action.

    The methods run against a database environment ([env]): the
    [service.followup] table, the [mail.activity] and [mail.message] tables,
    the activity types and the clock.  Every method is a computation in a
    state-and-exception monad over [env]; a raised exception carries no
    successor environment, which is how the ORM aborts a transaction. *)

From Stdlib Require Import ZArith List String Ascii Bool Lia DecimalString.
From Stdlib Require Import Sorting.Sorted Sorting.Permutation FinFun.
Import ListNotations.
Local Open Scope Z_scope.

(** ** Python values and exceptions *)

(** The exceptions the model can raise.  [ValidationError] is raised by the
    constraint, [AttributeError] by a method call on [False] (an empty
    field), [MissingError] by the ORM on a record that does not exist. *)
Inductive exception : Type :=
| ValidationError (msg : string)
| AttributeError (msg : string)
| MissingError (msg : string).

Inductive result (A : Type) : Type :=
| Ok (a : A)
| Raise (e : exception).
Arguments Ok {A} a.
Arguments Raise {A} e.

(** A value written to, or read from, an [Integer] field: Python's [False]
    or an [int]. *)
Inductive pyint : Type :=
| PyFalse
| PyInt (z : Z).

(** [v is not False] *)
Definition is_not_False (v : pyint) : bool :=
  match v with
  | PyFalse => false
  | PyInt _ => true
  end.

(** ** The data model *)

(** The selection values of the [state] field, in declaration order. *)
Inductive State : Type := draft | sent | replied | closed.

Definition State_eqb (a b : State) : bool :=
  match a, b with
  | draft, draft | sent, sent | replied, replied | closed, closed => true
  | _, _ => false
  end.

(** Position of a state in the workflow [draft < sent < replied < closed]. *)
Definition rank (s : State) : Z :=
  match s with
  | draft => 0
  | sent => 1
  | replied => 2
  | closed => 3
  end.

(** A row of [service.followup].  [Datetime] values are seconds since the
    epoch (UTC, the ORM keeps naive UTC datetimes without microseconds);
    [None] is an empty field, which Python code reads as [False].
    [rating] is the database column of the [Integer] field: [None] while it
    was never written. *)
Record followup : Type := mkFollowup {
  id : Z;
  name : string;
  partner_id : Z;
  appointment_date : option Z;
  assigned_user_id : option Z;
  state : State;
  sent_at : option Z;
  replied_at : option Z;
  rating : option Z;
  feedback : option string;
  chatbot_summary : option string
}.

(** A row of [mail.activity] (the reminder task).  [date_deadline] is a
    [Date]: days since the epoch.  [res_model] is the stored related field of
    [res_model_id]. *)
Record activity : Type := mkActivity {
  activity_id : Z;
  res_model : string;
  res_id : Z;
  activity_type_id : Z;
  summary : string;
  note : string;
  user_id : option Z;
  date_deadline : Z
}.

(** A row of [mail.activity.type]. *)
Record activity_type : Type := mkActivityType {
  type_id : Z;
  type_name : string
}.

(** A chatter message posted on a follow-up by [message_post]. *)
Record message : Type := mkMessage {
  msg_res_id : Z;
  body : string;
  message_type : string
}.

(** The environment: the clock and the tables the methods touch.
    [ir_model_data] maps an XML id to the id of the activity type it names;
    [mail_activity_type] lists the activity types in the model's search
    order. *)
Record env : Type := mkEnv {
  clock : Z;
  service_followup : list followup;
  mail_activity : list activity;
  mail_activity_seq : Z;
  mail_message : list message;
  ir_model_data : list (string * Z);
  mail_activity_type : list activity_type
}.

(** ** The monad of ORM computations *)

Definition M (A : Type) : Type := env -> result (A * env).

Definition ret {A : Type} (a : A) : M A := fun e => Ok (a, e).

Definition bind {A B : Type} (m : M A) (k : A -> M B) : M B :=
  fun e =>
    match m e with
    | Ok (a, e') => k a e'
    | Raise ex => Raise ex
    end.

Definition raise {A : Type} (ex : exception) : M A := fun _ => Raise ex.

Definition gets {A : Type} (f : env -> A) : M A := fun e => Ok (f e, e).

Definition modify (f : env -> env) : M unit := fun e => Ok (tt, f e).

Declare Scope orm_scope.
Delimit Scope orm_scope with orm.
Notation "x <- m ;; k" := (bind m (fun x => k))
  (at level 61, m at next level, right associativity) : orm_scope.
Notation "m ;;; k" := (bind m (fun _ => k))
  (at level 61, right associativity) : orm_scope.
Local Open Scope orm_scope.

(** [for x in xs: body(x)] *)
Fixpoint for_each {A : Type} (xs : list A) (body : A -> M unit) : M unit :=
  match xs with
  | [] => ret tt
  | x :: rest => body x ;;; for_each rest body
  end.

(** Modelled from the spec: the record store's transaction around a call,
    which is the ORM's and not part of this addon ("raised synchronously ...
    surfaced to the caller immediately; the write does not apply").  What a
    caller observes once the transaction has ended: the new environment when
    the computation returned, the environment as it was (rolled back)
    together with the exception when it raised. *)
Definition transaction {A : Type} (m : M A) (e : env)
  : env * option exception :=
  match m e with
  | Ok (_, e') => (e', None)
  | Raise ex => (e, Some ex)
  end.

(** [fields.Datetime.now()] *)
Definition Datetime_now : M Z := gets clock.

(** [fields.Date.today()]: the date of the clock. *)
Definition date_of (t : Z) : Z := t / 86400.
Definition Date_today : M Z := gets (fun e => date_of (clock e)).

(** [relativedelta(days=n)] on a naive UTC datetime. *)
Definition relativedelta_days (n : Z) : Z := n * 86400.

(** The clock advancing to [t] between two calls. *)
Definition set_clock (t : Z) (e : env) : env :=
  mkEnv t (service_followup e) (mail_activity e) (mail_activity_seq e)
        (mail_message e) (ir_model_data e) (mail_activity_type e).

(** ** The [Integer] field of the ORM

    [odoo.fields.Integer] keeps no [False]: a written value goes through
    [convert_to_cache], which is [int(value or 0)], and a read goes through
    [convert_to_record], which is [value or 0] (an empty column reads as
    [0]).  So [record.rating] is always an [int]. *)
Definition convert_to_cache (v : pyint) : Z :=
  match v with
  | PyFalse => 0
  | PyInt z => z
  end.

Definition convert_to_record (column : option Z) : pyint :=
  match column with
  | None => PyInt 0
  | Some z => PyInt z
  end.

(** [record.rating] *)
Definition read_rating (record : followup) : pyint :=
  convert_to_record (rating record).

(** ** Writing records *)

(** One [field: value] pair of the dictionary given to [write]. *)
Inductive assignment : Type :=
| Set_name (v : string)
| Set_partner_id (v : Z)
| Set_appointment_date (v : option Z)
| Set_assigned_user_id (v : option Z)
| Set_state (v : State)
| Set_sent_at (v : option Z)
| Set_replied_at (v : option Z)
| Set_rating (v : pyint)
| Set_feedback (v : option string)
| Set_chatbot_summary (v : option string).

Definition assign (a : assignment) (r : followup) : followup :=
  match a with
  | Set_name v =>
      mkFollowup (id r) v (partner_id r) (appointment_date r)
        (assigned_user_id r) (state r) (sent_at r) (replied_at r) (rating r)
        (feedback r) (chatbot_summary r)
  | Set_partner_id v =>
      mkFollowup (id r) (name r) v (appointment_date r)
        (assigned_user_id r) (state r) (sent_at r) (replied_at r) (rating r)
        (feedback r) (chatbot_summary r)
  | Set_appointment_date v =>
      mkFollowup (id r) (name r) (partner_id r) v
        (assigned_user_id r) (state r) (sent_at r) (replied_at r) (rating r)
        (feedback r) (chatbot_summary r)
  | Set_assigned_user_id v =>
      mkFollowup (id r) (name r) (partner_id r) (appointment_date r)
        v (state r) (sent_at r) (replied_at r) (rating r)
        (feedback r) (chatbot_summary r)
  | Set_state v =>
      mkFollowup (id r) (name r) (partner_id r) (appointment_date r)
        (assigned_user_id r) v (sent_at r) (replied_at r) (rating r)
        (feedback r) (chatbot_summary r)
  | Set_sent_at v =>
      mkFollowup (id r) (name r) (partner_id r) (appointment_date r)
        (assigned_user_id r) (state r) v (replied_at r) (rating r)
        (feedback r) (chatbot_summary r)
  | Set_replied_at v =>
      mkFollowup (id r) (name r) (partner_id r) (appointment_date r)
        (assigned_user_id r) (state r) (sent_at r) v (rating r)
        (feedback r) (chatbot_summary r)
  | Set_rating v =>
      mkFollowup (id r) (name r) (partner_id r) (appointment_date r)
        (assigned_user_id r) (state r) (sent_at r) (replied_at r)
        (Some (convert_to_cache v)) (feedback r) (chatbot_summary r)
  | Set_feedback v =>
      mkFollowup (id r) (name r) (partner_id r) (appointment_date r)
        (assigned_user_id r) (state r) (sent_at r) (replied_at r) (rating r)
        v (chatbot_summary r)
  | Set_chatbot_summary v =>
      mkFollowup (id r) (name r) (partner_id r) (appointment_date r)
        (assigned_user_id r) (state r) (sent_at r) (replied_at r) (rating r)
        (feedback r) v
  end.

(** The record after all pairs of [vals] are assigned. *)
Definition assign_all (vals : list assignment) (r : followup) : followup :=
  fold_left (fun acc a => assign a acc) vals r.

(** ['rating' in vals] *)
Definition is_rating (a : assignment) : bool :=
  match a with
  | Set_rating _ => true
  | _ => false
  end.

Definition touches_rating (vals : list assignment) : bool :=
  existsb is_rating vals.

(** [self.browse(i)] read from the table: the row with that id. *)
Definition browse (i : Z) (e : env) : option followup :=
  find (fun r => id r =? i) (service_followup e).

Definition set_service_followup (t : list followup) (e : env) : env :=
  mkEnv (clock e) t (mail_activity e) (mail_activity_seq e)
        (mail_message e) (ir_model_data e) (mail_activity_type e).

(** The table after [f] is applied to the row with id [i]. *)
Definition update_row (i : Z) (f : followup -> followup)
    (t : list followup) : list followup :=
  map (fun r => if id r =? i then f r else r) t.

(** [_check_rating_range]:
<<
    for record in self:
        if record.rating is not False and (record.rating < 1 or record.rating > 10):
            raise ValidationError(_('Rating must be between 1 and 10.'))
>> *)
Definition int_value (v : pyint) : Z :=
  match v with
  | PyFalse => 0
  | PyInt z => z
  end.

(** [v < 1 or v > 10]; Python compares [False] as the integer [0]. *)
Definition rating_out_of_range (v : pyint) : bool :=
  (int_value v <? 1) || (int_value v >? 10).

Fixpoint _check_rating_range (self : list followup) : result unit :=
  match self with
  | [] => Ok tt
  | record :: rest =>
      if is_not_False (read_rating record)
         && rating_out_of_range (read_rating record)
      then Raise (ValidationError "Rating must be between 1 and 10.")
      else _check_rating_range rest
  end.

(** [record.write(vals)] on the single record [i]: the values are assigned,
    then the constraint methods whose fields are among the written ones run on
    the record ([@api.constrains('rating')]).  A record that does not exist
    raises [MissingError]. *)
Definition write (i : Z) (vals : list assignment) : M unit :=
  fun e =>
    match browse i e with
    | None => Raise (MissingError "Record does not exist or has been deleted.")
    | Some r =>
        let r' := assign_all vals r in
        let e' := set_service_followup
                    (update_row i (assign_all vals) (service_followup e)) e in
        if touches_rating vals then
          match _check_rating_range [r'] with
          | Raise ex => Raise ex
          | Ok _ => Ok (tt, e')
          end
        else Ok (tt, e')
    end.

(** [record.message_post(body=..., message_type=...)]: a message appended to
    the record's chatter. *)
Definition message_post (i : Z) (b : string) (ty : string) : M unit :=
  modify (fun e =>
    mkEnv (clock e) (service_followup e) (mail_activity e)
          (mail_activity_seq e) (mail_message e ++ [mkMessage i b ty])
          (ir_model_data e) (mail_activity_type e)).

(** ** The workflow actions

    Each action is [for record in self: record.write(...);
    record.message_post(...)]; [self] is the list of record ids. *)

Definition action_mark_sent (self : list Z) : M unit :=
  for_each self (fun record =>
    now <- Datetime_now ;;
    write record [Set_state sent; Set_sent_at (Some now)] ;;;
    message_post record "Follow-up marked as sent." "notification").

Definition action_log_reply (self : list Z) : M unit :=
  for_each self (fun record =>
    now <- Datetime_now ;;
    write record [Set_state replied; Set_replied_at (Some now)] ;;;
    message_post record "Customer reply logged." "notification").

Definition action_close (self : list Z) : M unit :=
  for_each self (fun record =>
    write record [Set_state closed] ;;;
    message_post record "Follow-up closed." "notification").

(** ** Formatting a datetime: [strftime('%Y-%m-%d %H:%M')]

    A [datetime] lies between 0001-01-01 00:00:00 and 9999-12-31 23:59:59.
    Month, day, hour and minute are printed with two digits, zero-padded;
    the year is printed by the C library as a plain decimal number, without
    padding (the year 999 prints as [999]). *)

Definition datetime_min : Z := -62135596800.
Definition datetime_max : Z := 253402300799.

Definition is_datetime (t : Z) : bool :=
  (datetime_min <=? t) && (t <=? datetime_max).

Definition digit (d : Z) : ascii := ascii_of_nat (48 + Z.to_nat (d mod 10)).

Definition pad2 (n : Z) : string :=
  String (digit (n / 10)) (String (digit n) EmptyString).

(** [%Y] *)
Definition year_string (y : Z) : string :=
  NilZero.string_of_int (Z.to_int y).

(** The proleptic Gregorian date (year, month, day) of a day number counted
    from 1970-01-01. *)
Definition civil_from_days (days : Z) : Z * Z * Z :=
  let z := days + 719468 in
  let era := z / 146097 in
  let doe := z - era * 146097 in
  let yoe := (doe - doe / 1460 + doe / 36524 - doe / 146096) / 365 in
  let doy := doe - (365 * yoe + yoe / 4 - yoe / 100) in
  let mp := (5 * doy + 2) / 153 in
  let d := doy - (153 * mp + 2) / 5 + 1 in
  let m := if mp <? 10 then mp + 3 else mp - 9 in
  let y := yoe + era * 400 + (if m <=? 2 then 1 else 0) in
  (y, m, d).

Definition format_datetime (t : Z) : string :=
  let '(y, m, d) := civil_from_days (t / 86400) in
  let secs := t mod 86400 in
  (year_string y ++ "-" ++ pad2 m ++ "-" ++ pad2 d ++ " "
     ++ pad2 (secs / 3600) ++ ":" ++ pad2 ((secs / 60) mod 60))%string.

(** [value.strftime('%Y-%m-%d %H:%M')] on the value of a [Datetime] field:
    an empty field is [False], which has no [strftime]. *)
Definition strftime (value : option Z) : M string :=
  match value with
  | Some t => ret (format_datetime t)
  | None => raise (AttributeError "'bool' object has no attribute 'strftime'")
  end.

(** ** Searching *)

(** The model's [_order = 'appointment_date desc, id desc']: [order_le a b]
    when [a] is listed no later than [b].  In a descending column the
    database lists the empty values first. *)
Definition date_desc (a b : option Z) : comparison :=
  match a, b with
  | None, None => Eq
  | None, Some _ => Lt
  | Some _, None => Gt
  | Some x, Some y => y ?= x
  end.

Definition order_le (a b : followup) : bool :=
  match date_desc (appointment_date a) (appointment_date b) with
  | Lt => true
  | Gt => false
  | Eq => id b <=? id a
  end.

Fixpoint insert_sorted (x : followup) (l : list followup) : list followup :=
  match l with
  | [] => [x]
  | y :: rest => if order_le x y then x :: y :: rest
                 else y :: insert_sorted x rest
  end.

Definition sort_by_order (l : list followup) : list followup :=
  fold_right insert_sorted [] l.

(** [self.search(domain, limit=n)] on [service.followup]: the rows that
    satisfy the domain, in the model's order, cut at the limit. *)
Definition search (domain : followup -> bool) (limit : nat) : M (list followup) :=
  gets (fun e => firstn limit (sort_by_order (filter domain (service_followup e)))).

(** The domain of the scan:
<<
    [('state', '=', 'sent'), ('sent_at', '!=', False),
     ('sent_at', '<=', cutoff_date), ('replied_at', '=', False)]
>> *)
Definition is_set {A : Type} (v : option A) : bool :=
  match v with
  | Some _ => true
  | None => false
  end.

Definition datetime_le (v : option Z) (bound : Z) : bool :=
  match v with
  | Some t => t <=? bound
  | None => false
  end.

Definition overdue_domain (cutoff_date : Z) (r : followup) : bool :=
  State_eqb (state r) sent
  && is_set (sent_at r)
  && datetime_le (sent_at r) cutoff_date
  && negb (is_set (replied_at r)).

(** [self.env.ref(xml_id, raise_if_not_found=False)] for an activity type:
    the record the XML id names, when both exist. *)
Definition env_ref (xml_id : string) : M (option activity_type) :=
  gets (fun e =>
    match find (fun p => String.eqb (fst p) xml_id) (ir_model_data e) with
    | Some (_, i) => find (fun t => type_id t =? i) (mail_activity_type e)
    | None => None
    end).

(** [self.env['mail.activity.type'].search([('name', '=', n)], limit=1)] *)
Definition search_activity_type (n : string) : M (option activity_type) :=
  gets (fun e => find (fun t => String.eqb (type_name t) n) (mail_activity_type e)).

Definition option_Z_eqb (a b : option Z) : bool :=
  match a, b with
  | None, None => true
  | Some x, Some y => x =? y
  | _, _ => false
  end.

(** The domain of the duplicate check:
<<
    [('res_model', '=', 'service.followup'), ('res_id', '=', followup.id),
     ('activity_type_id', '=', activity_type.id),
     ('user_id', '=', followup.assigned_user_id.id),
     ('date_deadline', '>=', fields.Date.today())]
>> *)
Definition reminder_domain (followup_ : followup) (ty : activity_type)
    (today : Z) (a : activity) : bool :=
  String.eqb (res_model a) "service.followup"
  && (res_id a =? id followup_)
  && (activity_type_id a =? type_id ty)
  && option_Z_eqb (user_id a) (assigned_user_id followup_)
  && (today <=? date_deadline a).

(** [self.env['mail.activity'].search(domain, limit=1)]: at most one of the
    matching rows; the scan only tests the result for emptiness. *)
Definition search_activity (domain : activity -> bool) : M (list activity) :=
  gets (fun e => firstn 1 (filter domain (mail_activity e))).

(** [self.env['mail.activity'].create(vals)]: a new row with the next id of
    the table's sequence. *)
Definition create_activity (model : string) (rid ty : Z) (s n : string)
    (user : option Z) (deadline : Z) : M unit :=
  modify (fun e =>
    mkEnv (clock e) (service_followup e)
          (mail_activity e
             ++ [mkActivity (mail_activity_seq e) model rid ty s n user deadline])
          (mail_activity_seq e + 1) (mail_message e)
          (ir_model_data e) (mail_activity_type e)).

(** ** The reminder scan *)

(** The body of [for followup in followups] in [cron_followup_reminder]. *)
Definition remind (ty : activity_type) (followup_ : followup) : M unit :=
  today <- Date_today ;;
  existing_activity <- search_activity (reminder_domain followup_ ty today) ;;
  match existing_activity with
  | _ :: _ => ret tt
  | [] =>
      sent_on <- strftime (sent_at followup_) ;;
      deadline <- Date_today ;;
      create_activity "service.followup" (id followup_) (type_id ty)
        ("Follow-up Reminder: " ++ name followup_)%string
        ("This follow-up was sent on " ++ sent_on
           ++ " and has not received a reply yet. "
           ++ "Please check with the customer.")%string
        (assigned_user_id followup_) deadline
  end.

(** The to-do activity type of the scan:
<<
    activity_type = self.env.ref('mail.mail_activity_data_todo', raise_if_not_found=False)
    if not activity_type:
        activity_type = self.env['mail.activity.type'].search([('name', '=', 'To Do')], limit=1)
>> *)
Definition todo_activity_type : M (option activity_type) :=
  activity_type <- env_ref "mail.mail_activity_data_todo" ;;
  match activity_type with
  | Some ty => ret (Some ty)
  | None => search_activity_type "To Do"
  end.

(** [cron_followup_reminder] *)
Definition cron_followup_reminder : M unit :=
  now <- Datetime_now ;;
  let cutoff_date := now - relativedelta_days 2 in
  followups <- search (overdue_domain cutoff_date) 50 ;;
  activity_type <- todo_activity_type ;;
  match activity_type with
  | None => ret tt
  | Some ty => for_each followups (remind ty)
  end.

(** ** Sample data *)

(** An environment holding the follow-ups [t] and the standard to-do
    activity type, the clock reading [now]. *)
Definition todo_type : activity_type := mkActivityType 4 "To Do".

Definition env_of (now : Z) (t : list followup) : env :=
  mkEnv now t [] 1 [] [("mail.mail_activity_data_todo"%string, 4)] [todo_type].

(** The same environment without any activity type. *)
Definition env_without_types (now : Z) (t : list followup) : env :=
  mkEnv now t [] 1 [] [] [].

(** One follow-up that went through the whole workflow and was rated. *)
Definition closed_followup : followup :=
  mkFollowup 7 "Annual service" 12 (Some 1699000000) (Some 2) closed
    (Some 1699100000) (Some 1699200000) (Some 8) (Some "Fine"%string) None.

(** [calls] of [m] made one after the other, the clock reading the next
    element of [ts] at each. *)
Fixpoint run_at (m : M unit) (ts : list Z) : M unit :=
  match ts with
  | [] => ret tt
  | t :: rest => modify (set_clock t) ;;; m ;;; run_at m rest
  end.

(** The three workflow operations and the state each one writes. *)
Inductive operation : Type := markSent | logReply | close.

Definition target (op : operation) : State :=
  match op with
  | markSent => sent
  | logReply => replied
  | close => closed
  end.

Definition run_operation (op : operation) (i : Z) : M unit :=
  match op with
  | markSent => action_mark_sent [i]
  | logReply => action_log_reply [i]
  | close => action_close [i]
  end.

(** A sequence of operations on one record, in order. *)
Definition run_operations (ops : list operation) (i : Z) : M unit :=
  for_each ops (fun op => run_operation op i).

(** The environment after [record.write(vals)] and
    [record.message_post(body=b, message_type=ty)] on record [i]. *)
Definition written_and_posted (i : Z) (vals : list assignment)
    (b ty : string) (e : env) : env :=
  mkEnv (clock e)
        (update_row i (assign_all vals) (service_followup e))
        (mail_activity e) (mail_activity_seq e)
        (mail_message e ++ [mkMessage i b ty])
        (ir_model_data e) (mail_activity_type e).

(** The three follow-ups of the module's reminder test, the clock reading
    [now]: [followup_overdue] was sent three days ago, [followup_recent] one
    day ago, [followup_replied] was sent three days ago and answered. *)
Definition followup_overdue (now : Z) : followup :=
  mkFollowup 1 "Overdue Follow-up" 12 None (Some 2) sent
    (Some (now - relativedelta_days 3)) None None None None.

Definition followup_recent (now : Z) : followup :=
  mkFollowup 2 "Recent Follow-up" 12 None (Some 2) sent
    (Some (now - relativedelta_days 1)) None None None None.

Definition followup_replied (now : Z) : followup :=
  mkFollowup 3 "Replied Follow-up" 12 None (Some 2) replied
    (Some (now - relativedelta_days 3)) (Some now) None None None.

(** A follow-up sent one second less than two days before [now]. *)
Definition followup_almost_overdue (now : Z) : followup :=
  mkFollowup 2 "Almost overdue" 12 None (Some 2) sent
    (Some (now - relativedelta_days 2 + 1)) None None None None.

(** The table of the module's reminder test. *)
Definition test_rows (now : Z) : list followup :=
  [followup_overdue now; followup_recent now; followup_replied now].

(** The rows the scan selects in environment [e], before the limit and the
    ordering. *)
Definition overdue_rows (e : env) : list followup :=
  filter (overdue_domain (clock e - relativedelta_days 2)) (service_followup e).

(** The reminder [remind] creates for a follow-up sent at [t]. *)
Definition reminder (ty : activity_type) (followup_ : followup) (t : Z)
    (e : env) : activity :=
  mkActivity (mail_activity_seq e) "service.followup" (id followup_)
    (type_id ty)
    ("Follow-up Reminder: " ++ name followup_)%string
    ("This follow-up was sent on " ++ format_datetime t
       ++ " and has not received a reply yet. "
       ++ "Please check with the customer.")%string
    (assigned_user_id followup_) (date_of (clock e)).

Definition add_activity (a : activity) (e : env) : env :=
  mkEnv (clock e) (service_followup e) (mail_activity e ++ [a])
        (mail_activity_seq e + 1) (mail_message e)
        (ir_model_data e) (mail_activity_type e).

(** Whether the duplicate check of [remind] finds a reminder. *)
Definition has_reminder (ty : activity_type) (followup_ : followup)
    (e : env) : bool :=
  existsb (reminder_domain followup_ ty (date_of (clock e))) (mail_activity e).

(** The rows one scan of environment [e] works on: the selected rows in the
    model's order, cut at the limit of 50. *)
Definition batch (e : env) : list followup :=
  firstn 50 (sort_by_order (overdue_rows e)).

(** [a] is a reminder of type [ty] for follow-up [f], due on [today]. *)
Definition reminds (ty : activity_type) (today : Z) (f : followup)
    (a : activity) : Prop :=
  res_model a = "service.followup"%string
  /\ res_id a = id f
  /\ activity_type_id a = type_id ty
  /\ user_id a = assigned_user_id f
  /\ date_deadline a = today.

(** What the loop of the scan over the rows [l] does to an environment:
    it appends the activities [new] and touches nothing else; each new
    activity is the reminder of a row of [l] that had none, and afterwards
    every row of [l] has one. *)
Record scanned (ty : activity_type) (l : list followup) (e e' : env)
    (new : list activity) : Prop := mkScanned {
  scanned_activities : mail_activity e' = mail_activity e ++ new;
  scanned_clock : clock e' = clock e;
  scanned_followups : service_followup e' = service_followup e;
  scanned_messages : mail_message e' = mail_message e;
  scanned_data : ir_model_data e' = ir_model_data e;
  scanned_types : mail_activity_type e' = mail_activity_type e;
  scanned_count : (List.length new <= List.length l)%nat;
  scanned_new :
    Forall (fun a => exists f, In f l
                               /\ reminds ty (date_of (clock e)) f a
                               /\ has_reminder ty f e = false) new;
  scanned_all : Forall (fun f => has_reminder ty f e' = true) l
}.

(** A list of rows is in the model's order. *)
Definition listed_in_order : list followup -> Prop :=
  StronglySorted (fun a b => order_le a b = true).

(** [n] follow-ups, ids [1..n], all sent three days before [now] and
    unanswered. *)
Definition overdue_batch (n : nat) (now : Z) : list followup :=
  map (fun k => mkFollowup (Z.of_nat k) "Bulk follow-up" 12 None (Some 2) sent
                  (Some (now - relativedelta_days 3)) None None None None)
      (seq 1 n).

(** The number of activities a computation adds, when it returns. *)
Definition created_by (m : M unit) (e : env) : option nat :=
  match m e with
  | Ok (_, e') => Some (List.length (mail_activity e') - List.length (mail_activity e))%nat
  | Raise _ => None
  end.

(** A call [m] made when the clock reads [t]. *)
Definition at_time (t : Z) (m : M unit) : M unit :=
  modify (set_clock t) ;;; m.

(** The method of each operation on a recordset, the values it writes when
    the clock reads [now], and the body of the message it posts. *)
Definition action (op : operation) (self : list Z) : M unit :=
  match op with
  | markSent => action_mark_sent self
  | logReply => action_log_reply self
  | close => action_close self
  end.

Definition written (op : operation) (now : Z) : list assignment :=
  match op with
  | markSent => [Set_state sent; Set_sent_at (Some now)]
  | logReply => [Set_state replied; Set_replied_at (Some now)]
  | close => [Set_state closed]
  end.

Definition notification (op : operation) : string :=
  match op with
  | markSent => "Follow-up marked as sent."
  | logReply => "Customer reply logged."
  | close => "Follow-up closed."
  end.

(** [r'] has the fields of [r] that no workflow action writes. *)
Definition same_details (r r' : followup) : Prop :=
  id r' = id r
  /\ name r' = name r
  /\ partner_id r' = partner_id r
  /\ appointment_date r' = appointment_date r
  /\ assigned_user_id r' = assigned_user_id r
  /\ rating r' = rating r
  /\ feedback r' = feedback r
  /\ chatbot_summary r' = chatbot_summary r.

(** An environment whose only activity type is named "To Do" and has no XML
    id, as after the standard type was removed and one was made by hand. *)
Definition env_with_named_type (now : Z) (t : list followup) : env :=
  mkEnv now t [] 1 [] [] [mkActivityType 9 "To Do"].

(** Row [k] of [overdue_batch]. *)
Definition bulk_row (k : Z) (now : Z) : followup :=
  mkFollowup k "Bulk follow-up" 12 None (Some 2) sent
    (Some (now - relativedelta_days 3)) None None None None.

(** The environment of the reminder test with one reminder of the overdue
    follow-up already there, due on [day]. *)
Definition env_reminded_on (day : Z) (now : Z) : env :=
  mkEnv now (test_rows now)
    [mkActivity 1 "service.followup" 1 4
       "Follow-up Reminder: Overdue Follow-up" "Earlier reminder" (Some 2) day]
    2 [] [("mail.mail_activity_data_todo"%string, 4)] [todo_type].

(** The notes of the activities a computation adds, when it returns. *)
Definition notes_created (m : M unit) (e : env) : option (list string) :=
  match m e with
  | Ok (_, e') =>
      Some (map note (skipn (List.length (mail_activity e)) (mail_activity e')))
  | Raise _ => None
  end.


(** [n] overdue follow-ups, ids [1..n]: the first has no appointment date,
    follow-up [k] after it has its appointment on day [19000 + k]. *)
Definition dated_row (k : Z) (now : Z) : followup :=
  mkFollowup k "Dated follow-up" 12
    (if k =? 1 then None else Some ((19000 + k) * 86400)) (Some 2) sent
    (Some (now - relativedelta_days 3)) None None None None.

Definition dated_batch (n : nat) (now : Z) : list followup :=
  map (fun k => dated_row (Z.of_nat k) now) (seq 1 n).

(** ** Facts about rows and tables *)

Lemma id_assign (a : assignment) (r : followup) : id (assign a r) = id r.
Proof. destruct a; reflexivity. Qed.

Lemma id_assign_all (vals : list assignment) (r : followup) :
  id (assign_all vals r) = id r.
Proof.
  unfold assign_all. revert r.
  induction vals as [|a vals IH]; intro r; simpl.
  - reflexivity.
  - rewrite IH. apply id_assign.
Qed.

Lemma find_update_row (i j : Z) (f : followup -> followup) (t : list followup) :
  (forall r, id (f r) = id r) ->
  find (fun r => id r =? j) (update_row i f t)
  = (if j =? i then option_map f (find (fun r => id r =? j) t)
     else find (fun r => id r =? j) t).
Proof.
  intros Hid. induction t as [|r t IH]; simpl.
  - destruct (j =? i); reflexivity.
  - destruct (id r =? i) eqn:Hri.
    + rewrite Hid. apply Z.eqb_eq in Hri.
      destruct (id r =? j) eqn:Hrj.
      * apply Z.eqb_eq in Hrj.
        assert (Hji : (j =? i) = true) by (apply Z.eqb_eq; congruence).
        rewrite Hji. reflexivity.
      * exact IH.
    + destruct (id r =? j) eqn:Hrj.
      * apply Z.eqb_eq in Hrj. apply Z.eqb_neq in Hri.
        assert (Hji : (j =? i) = false) by (apply Z.eqb_neq; congruence).
        rewrite Hji. reflexivity.
      * exact IH.
Qed.

Lemma browse_written (i : Z) (vals : list assignment) (e : env) (r : followup) :
  browse i e = Some r ->
  browse i (set_service_followup
              (update_row i (assign_all vals) (service_followup e)) e)
  = Some (assign_all vals r).
Proof.
  unfold browse. simpl. intro H.
  rewrite find_update_row by (intro; apply id_assign_all).
  rewrite Z.eqb_refl, H. reflexivity.
Qed.

Lemma browse_other (i j : Z) (vals : list assignment) (e : env) :
  j <> i ->
  browse j (set_service_followup
              (update_row i (assign_all vals) (service_followup e)) e)
  = browse j e.
Proof.
  unfold browse. simpl. intro H.
  rewrite find_update_row by (intro; apply id_assign_all).
  apply Z.eqb_neq in H. rewrite H. reflexivity.
Qed.

(** A write that does not name [rating] runs no constraint and returns. *)
Lemma write_untouched_rating (i : Z) (vals : list assignment) (e : env)
    (r : followup) :
  browse i e = Some r ->
  touches_rating vals = false ->
  write i vals e
  = Ok (tt, set_service_followup
              (update_row i (assign_all vals) (service_followup e)) e).
Proof.
  intros Hb Ht. unfold write. rewrite Hb, Ht. reflexivity.
Qed.

(** What the constraint decides on a single record. *)
Lemma check_rating_single (r : followup) :
  _check_rating_range [r]
  = (if rating_out_of_range (read_rating r)
     then Raise (ValidationError "Rating must be between 1 and 10.")
     else Ok tt).
Proof.
  simpl. unfold read_rating, convert_to_record.
  destruct (rating r) as [z|]; simpl.
  - destruct (rating_out_of_range (PyInt z)); reflexivity.
  - destruct (rating_out_of_range (PyInt 0)); reflexivity.
Qed.

Lemma write_rating (i : Z) (v : pyint) (e : env) (r : followup) :
  browse i e = Some r ->
  write i [Set_rating v] e
  = (if rating_out_of_range (PyInt (convert_to_cache v))
     then Raise (ValidationError "Rating must be between 1 and 10.")
     else Ok (tt, set_service_followup
                    (update_row i (assign_all [Set_rating v])
                       (service_followup e)) e)).
Proof.
  intro Hb. unfold write. rewrite Hb.
  cbv [touches_rating existsb is_rating orb].
  rewrite check_rating_single.
  unfold read_rating. simpl.
  destruct (rating_out_of_range (PyInt (convert_to_cache v))); reflexivity.
Qed.

(** ** The workflow actions on one record *)

Lemma write_then_post (i : Z) (vals : list assignment) (b ty : string)
    (e : env) (r : followup) :
  browse i e = Some r ->
  touches_rating vals = false ->
  (write i vals ;;; message_post i b ty) e
  = Ok (tt, written_and_posted i vals b ty e).
Proof.
  intros Hb Ht. unfold bind.
  rewrite (write_untouched_rating i vals e r Hb Ht). reflexivity.
Qed.

Lemma browse_written_and_posted (i : Z) (vals : list assignment)
    (b ty : string) (e : env) (r : followup) :
  browse i e = Some r ->
  browse i (written_and_posted i vals b ty e) = Some (assign_all vals r).
Proof. intro H. apply (browse_written i vals e r H). Qed.

Lemma browse_written_and_posted_other (i j : Z) (vals : list assignment)
    (b ty : string) (e : env) :
  j <> i ->
  browse j (written_and_posted i vals b ty e) = browse j e.
Proof. intro H. apply (browse_other i j vals e H). Qed.

Lemma action_mark_sent_single (i : Z) (e : env) (r : followup) :
  browse i e = Some r ->
  action_mark_sent [i] e
  = Ok (tt, written_and_posted i
              [Set_state sent; Set_sent_at (Some (clock e))]
              "Follow-up marked as sent." "notification" e).
Proof.
  intro Hb. unfold action_mark_sent, for_each.
  unfold bind at 1. unfold bind at 1. unfold Datetime_now, gets.
  rewrite (write_then_post i
             [Set_state sent; Set_sent_at (Some (clock e))] _ _ e r Hb eq_refl).
  reflexivity.
Qed.

Lemma action_log_reply_single (i : Z) (e : env) (r : followup) :
  browse i e = Some r ->
  action_log_reply [i] e
  = Ok (tt, written_and_posted i
              [Set_state replied; Set_replied_at (Some (clock e))]
              "Customer reply logged." "notification" e).
Proof.
  intro Hb. unfold action_log_reply, for_each.
  unfold bind at 1. unfold bind at 1. unfold Datetime_now, gets.
  rewrite (write_then_post i
             [Set_state replied; Set_replied_at (Some (clock e))] _ _ e r Hb
             eq_refl).
  reflexivity.
Qed.

Lemma action_close_single (i : Z) (e : env) (r : followup) :
  browse i e = Some r ->
  action_close [i] e
  = Ok (tt, written_and_posted i [Set_state closed]
              "Follow-up closed." "notification" e).
Proof.
  intro Hb. unfold action_close, for_each.
  unfold bind at 1.
  rewrite (write_then_post i [Set_state closed] _ _ e r Hb eq_refl).
  reflexivity.
Qed.

(** Every operation returns, and leaves the record in its target state;
    the fields it does not write keep their values. *)
Lemma run_operation_single (op : operation) (i : Z) (e : env) (r : followup) :
  browse i e = Some r ->
  exists e' r',
    run_operation op i e = Ok (tt, e')
    /\ browse i e' = Some r'
    /\ state r' = target op
    /\ rating r' = rating r.
Proof.
  intro Hb. destruct op; simpl.
  - rewrite (action_mark_sent_single i e r Hb).
    eexists; eexists; split; [reflexivity|].
    split; [apply browse_written_and_posted; exact Hb|].
    split; reflexivity.
  - rewrite (action_log_reply_single i e r Hb).
    eexists; eexists; split; [reflexivity|].
    split; [apply browse_written_and_posted; exact Hb|].
    split; reflexivity.
  - rewrite (action_close_single i e r Hb).
    eexists; eexists; split; [reflexivity|].
    split; [apply browse_written_and_posted; exact Hb|].
    split; reflexivity.
Qed.

Lemma run_operations_returns (ops : list operation) (i : Z) (e : env)
    (r : followup) :
  browse i e = Some r ->
  exists e' r', run_operations ops i e = Ok (tt, e') /\ browse i e' = Some r'.
Proof.
  revert e r. induction ops as [|op ops IH]; intros e r Hb.
  - exists e, r. split; [reflexivity | exact Hb].
  - destruct (run_operation_single op i e r Hb) as (e1 & r1 & Hrun & Hb1 & _).
    destruct (IH e1 r1 Hb1) as (e2 & r2 & Hrest & Hb2).
    exists e2, r2. split; [|exact Hb2].
    unfold run_operations in *. simpl. unfold bind. rewrite Hrun. exact Hrest.
Qed.

(** ** The rating constraint *)

(** C3.  On an existing follow-up, [write({'rating': v})] with an integer [v]
    returns and leaves [record.rating = v] when [1 <= v <= 10], and raises
    [ValidationError] when [v < 1] or [v > 10]. *)
Theorem write_rating_checked (e : env) (i : Z) (r : followup) (v : Z) :
  browse i e = Some r ->
  (1 <= v <= 10 ->
     exists e' r',
       write i [Set_rating (PyInt v)] e = Ok (tt, e')
       /\ browse i e' = Some r'
       /\ read_rating r' = PyInt v)
  /\ (v < 1 \/ v > 10 ->
      write i [Set_rating (PyInt v)] e
      = Raise (ValidationError "Rating must be between 1 and 10.")).
Proof.
  intro Hb. rewrite (write_rating i (PyInt v) e r Hb).
  unfold rating_out_of_range. simpl. split.
  - intros [Hlo Hhi].
    assert (H1 : (v <? 1) = false) by (apply Z.ltb_ge; lia).
    assert (H2 : (v >? 10) = false) by (rewrite Z.gtb_ltb; apply Z.ltb_ge; lia).
    rewrite H1, H2. simpl.
    eexists; eexists. split; [reflexivity|].
    split; [apply (browse_written i [Set_rating (PyInt v)] e r Hb)|].
    reflexivity.
  - intros [Hlo | Hhi].
    + assert (H1 : (v <? 1) = true) by (apply Z.ltb_lt; lia).
      rewrite H1. reflexivity.
    + assert (H2 : (v >? 10) = true) by (rewrite Z.gtb_ltb; apply Z.ltb_lt; lia).
      rewrite H2, orb_true_r. reflexivity.
Qed.

Lemma write_rating_checked_witness :
  (exists e' r',
     write 7 [Set_rating (PyInt 10)] (env_of 1700000000 [closed_followup])
     = Ok (tt, e')
     /\ browse 7 e' = Some r' /\ read_rating r' = PyInt 10)
  /\ write 7 [Set_rating (PyInt 0)] (env_of 1700000000 [closed_followup])
     = Raise (ValidationError "Rating must be between 1 and 10.")
  /\ write 7 [Set_rating (PyInt 11)] (env_of 1700000000 [closed_followup])
     = Raise (ValidationError "Rating must be between 1 and 10.").
Proof.
  split; [|split].
  - apply (write_rating_checked (env_of 1700000000 [closed_followup]) 7
             closed_followup 10 eq_refl). lia.
  - apply (write_rating_checked (env_of 1700000000 [closed_followup]) 7
             closed_followup 0 eq_refl). lia.
  - apply (write_rating_checked (env_of 1700000000 [closed_followup]) 7
             closed_followup 11 eq_refl). lia.
Defined.

(** A write that does not name [rating] runs no constraint, so it never
    raises [ValidationError]. *)
Lemma write_without_rating_returns (e : env) (i : Z) (r : followup)
    (vals : list assignment) :
  browse i e = Some r ->
  touches_rating vals = false ->
  exists e', write i vals e = Ok (tt, e').
Proof.
  intros Hb Ht. rewrite (write_untouched_rating i vals e r Hb Ht).
  eexists. reflexivity.
Qed.

(** [write({'rating': False})] stores [0]; the constraint reads [0], which
    [is not False], and raises. *)
Lemma clearing_rating_raises (e : env) (i : Z) (r : followup) :
  browse i e = Some r ->
  write i [Set_rating PyFalse] e
  = Raise (ValidationError "Rating must be between 1 and 10.").
Proof. intro Hb. rewrite (write_rating i PyFalse e r Hb). reflexivity. Qed.

(** C5 at a concrete record (rating 8, cleared with [False]): the write
    raises [ValidationError]. *)
Example clearing_rating_of_closed_followup :
  write 7 [Set_rating PyFalse] (env_of 1700000000 [closed_followup])
  = Raise (ValidationError "Rating must be between 1 and 10.").
Proof. reflexivity. Qed.

(** C7.  A write of a rating outside [1,10] on an existing follow-up raises
    [ValidationError], and once the transaction has ended the environment is
    the one before the write: the record reads as before, in every field. *)
Theorem invalid_rating_write_does_not_apply (e : env) (i : Z) (r : followup)
    (v : Z) :
  browse i e = Some r ->
  v < 1 \/ v > 10 ->
  transaction (write i [Set_rating (PyInt v)]) e
  = (e, Some (ValidationError "Rating must be between 1 and 10."))
  /\ browse i (fst (transaction (write i [Set_rating (PyInt v)]) e)) = Some r.
Proof.
  intros Hb Hv. unfold transaction.
  rewrite (write_rating i (PyInt v) e r Hb).
  assert (Hout : rating_out_of_range (PyInt (convert_to_cache (PyInt v))) = true).
  { unfold rating_out_of_range. simpl. apply orb_true_iff.
    destruct Hv as [Hlo | Hhi].
    - left. apply Z.ltb_lt. lia.
    - right. rewrite Z.gtb_ltb. apply Z.ltb_lt. lia. }
  rewrite Hout. simpl. split; [reflexivity | exact Hb].
Qed.

Lemma invalid_rating_write_does_not_apply_witness :
  transaction (write 7 [Set_rating (PyInt 11)])
    (env_of 1700000000 [closed_followup])
  = (env_of 1700000000 [closed_followup],
     Some (ValidationError "Rating must be between 1 and 10."))
  /\ browse 7 (fst (transaction (write 7 [Set_rating (PyInt 11)])
                      (env_of 1700000000 [closed_followup])))
     = Some closed_followup.
Proof.
  apply (invalid_rating_write_does_not_apply
           (env_of 1700000000 [closed_followup]) 7 closed_followup 11 eq_refl).
  right. lia.
Defined.

(** ** The workflow *)

Lemma mark_sent_twice (r : followup) (t0 t : Z) :
  assign_all [Set_state sent; Set_sent_at (Some t)]
    (assign_all [Set_state sent; Set_sent_at (Some t0)] r)
  = assign_all [Set_state sent; Set_sent_at (Some t)] r.
Proof. reflexivity. Qed.

Lemma browse_set_clock (i t : Z) (e : env) :
  browse i (set_clock t e) = browse i e.
Proof. reflexivity. Qed.

(** C6.  On an existing follow-up, after the last of any number of calls of
    [action_mark_sent] (at least one, the clock reading [t] at the last) the
    method has returned, the state is [sent] and [sent_at] is [t]; the other
    fields are those of the record before the calls. *)
Theorem mark_sent_last_write_wins (e : env) (i : Z) (r : followup)
    (ts : list Z) (t : Z) :
  browse i e = Some r ->
  exists e' r',
    run_at (action_mark_sent [i]) (ts ++ [t]) e = Ok (tt, e')
    /\ browse i e' = Some r'
    /\ state r' = sent
    /\ sent_at r' = Some t
    /\ r' = assign_all [Set_state sent; Set_sent_at (Some t)] r.
Proof.
  revert e r. induction ts as [|t0 ts IH]; intros e r Hb.
  - simpl. unfold bind, modify.
    rewrite (action_mark_sent_single i (set_clock t e) r Hb).
    eexists; eexists. split; [reflexivity|].
    split; [apply browse_written_and_posted; exact Hb|].
    repeat split.
  - simpl. unfold bind at 1. unfold modify. unfold bind at 1.
    rewrite (action_mark_sent_single i (set_clock t0 e) r Hb).
    pose proof (browse_written_and_posted i
                  [Set_state sent; Set_sent_at (Some (clock (set_clock t0 e)))]
                  "Follow-up marked as sent." "notification"
                  (set_clock t0 e) r Hb) as Hb1.
    destruct (IH _ _ Hb1) as (e' & r' & Hrun & Hb' & Hst & Hat & Heq).
    exists e', r'. split; [exact Hrun|]. split; [exact Hb'|].
    split; [exact Hst|]. split; [exact Hat|].
    rewrite Heq. apply mark_sent_twice.
Qed.

Lemma mark_sent_last_write_wins_witness :
  exists e' r',
    run_at (action_mark_sent [7]) ([1700000000; 1700000060] ++ [1700000120])
      (env_of 1699999999 [closed_followup]) = Ok (tt, e')
    /\ browse 7 e' = Some r'
    /\ state r' = sent
    /\ sent_at r' = Some 1700000120
    /\ r' = assign_all [Set_state sent; Set_sent_at (Some 1700000120)]
              closed_followup.
Proof.
  apply (mark_sent_last_write_wins (env_of 1699999999 [closed_followup]) 7
           closed_followup [1700000000; 1700000060] 1700000120).
  reflexivity.
Defined.

(** C9.  On an existing follow-up in any state, [action_close] returns and
    leaves the record with [state = closed] and every other field as it
    was; the other follow-ups and the activities are untouched. *)
Theorem action_close_changes_state_only (e : env) (i : Z) (r : followup) :
  browse i e = Some r ->
  exists e' r',
    action_close [i] e = Ok (tt, e')
    /\ browse i e' = Some r'
    /\ state r' = closed
    /\ id r' = id r
    /\ name r' = name r
    /\ partner_id r' = partner_id r
    /\ appointment_date r' = appointment_date r
    /\ assigned_user_id r' = assigned_user_id r
    /\ sent_at r' = sent_at r
    /\ replied_at r' = replied_at r
    /\ rating r' = rating r
    /\ feedback r' = feedback r
    /\ chatbot_summary r' = chatbot_summary r
    /\ (forall j, j <> i -> browse j e' = browse j e)
    /\ mail_activity e' = mail_activity e.
Proof.
  intro Hb. rewrite (action_close_single i e r Hb).
  eexists; eexists. split; [reflexivity|].
  split; [apply browse_written_and_posted; exact Hb|].
  repeat (split; [reflexivity|]).
  split; [|reflexivity].
  intros j Hj. apply browse_written_and_posted_other. exact Hj.
Qed.

Lemma action_close_changes_state_only_witness :
  exists e' r',
    action_close [7] (env_of 1700000000 [closed_followup]) = Ok (tt, e')
    /\ browse 7 e' = Some r'
    /\ state r' = closed
    /\ id r' = id closed_followup
    /\ name r' = name closed_followup
    /\ partner_id r' = partner_id closed_followup
    /\ appointment_date r' = appointment_date closed_followup
    /\ assigned_user_id r' = assigned_user_id closed_followup
    /\ sent_at r' = sent_at closed_followup
    /\ replied_at r' = replied_at closed_followup
    /\ rating r' = rating closed_followup
    /\ feedback r' = feedback closed_followup
    /\ chatbot_summary r' = chatbot_summary closed_followup
    /\ (forall j, j <> 7 ->
          browse j e' = browse j (env_of 1700000000 [closed_followup]))
    /\ mail_activity e'
       = mail_activity (env_of 1700000000 [closed_followup]).
Proof.
  apply (action_close_changes_state_only
           (env_of 1700000000 [closed_followup]) 7 closed_followup).
  reflexivity.
Defined.

(** C4, as stated, fails: [action_mark_sent] on a closed follow-up returns it
    to [sent], which is earlier in the workflow. *)
Example mark_sent_reopens_closed :
  exists e' r',
    run_operations [markSent] 7 (env_of 1700000000 [closed_followup])
    = Ok (tt, e')
    /\ browse 7 (env_of 1700000000 [closed_followup]) = Some closed_followup
    /\ state closed_followup = closed
    /\ browse 7 e' = Some r'
    /\ state r' = sent
    /\ rank (state r') < rank (state closed_followup).
Proof.
  eexists; eexists. split; [reflexivity|].
  split; [reflexivity|]. split; [reflexivity|].
  split; [reflexivity|]. split; reflexivity.
Qed.

(** C4, amended.  The operations have no guard: after any sequence of
    [markSent], [logReply] and [close] on an existing follow-up, a further
    operation returns and leaves the state at its own target.  So that
    operation keeps the order [draft < sent < replied < closed] exactly when
    its target is not earlier than the state it finds; [close] never moves
    the state backward. *)
Theorem operation_writes_its_target (e : env) (i : Z) (r : followup)
    (ops : list operation) (op : operation) :
  browse i e = Some r ->
  exists e1 r1 e2 r2,
    run_operations ops i e = Ok (tt, e1)
    /\ browse i e1 = Some r1
    /\ run_operation op i e1 = Ok (tt, e2)
    /\ browse i e2 = Some r2
    /\ state r2 = target op
    /\ (rank (state r1) <= rank (state r2)
        <-> rank (state r1) <= rank (target op))
    /\ (op = close -> rank (state r1) <= rank (state r2)).
Proof.
  intro Hb.
  destruct (run_operations_returns ops i e r Hb) as (e1 & r1 & Hrun & Hb1).
  destruct (run_operation_single op i e1 r1 Hb1) as (e2 & r2 & Hop & Hb2 & Hst & _).
  exists e1, r1, e2, r2.
  split; [exact Hrun|]. split; [exact Hb1|]. split; [exact Hop|].
  split; [exact Hb2|]. split; [exact Hst|].
  rewrite Hst. split; [tauto|].
  intro Hc. subst op. simpl. destruct (state r1); simpl; lia.
Qed.

Lemma operation_writes_its_target_witness :
  exists e1 r1 e2 r2,
    run_operations [markSent; logReply] 7
      (env_of 1700000000 [closed_followup]) = Ok (tt, e1)
    /\ browse 7 e1 = Some r1
    /\ run_operation close 7 e1 = Ok (tt, e2)
    /\ browse 7 e2 = Some r2
    /\ state r2 = target close
    /\ (rank (state r1) <= rank (state r2)
        <-> rank (state r1) <= rank (target close))
    /\ (close = close -> rank (state r1) <= rank (state r2)).
Proof.
  apply (operation_writes_its_target (env_of 1700000000 [closed_followup]) 7
           closed_followup [markSent; logReply] close).
  reflexivity.
Defined.

(** ** The search order *)

Lemma order_le_total (a b : followup) :
  order_le a b = false -> order_le b a = true.
Proof.
  unfold order_le, date_desc.
  destruct (appointment_date a) as [x|], (appointment_date b) as [y|];
    try discriminate; try reflexivity.
  - rewrite (Z.compare_antisym y x).
    destruct (Z.compare_spec y x); simpl; try discriminate; try reflexivity.
    subst. intro H. apply Z.leb_gt in H. apply Z.leb_le. lia.
  - intro H. apply Z.leb_gt in H. apply Z.leb_le. lia.
Qed.

Lemma order_le_trans (a b c : followup) :
  order_le a b = true -> order_le b c = true -> order_le a c = true.
Proof.
  unfold order_le, date_desc.
  destruct (appointment_date a) as [x|], (appointment_date b) as [y|],
           (appointment_date c) as [z|];
    try discriminate; try reflexivity.
  - destruct (Z.compare_spec y x), (Z.compare_spec z y), (Z.compare_spec z x);
      try discriminate; try reflexivity; try lia;
      intros H1 H2; apply Z.leb_le in H1; apply Z.leb_le in H2;
      apply Z.leb_le; lia.
  - intros H1 H2. apply Z.leb_le in H1. apply Z.leb_le in H2.
    apply Z.leb_le. lia.
Qed.

Lemma insert_sorted_In (x y : followup) (l : list followup) :
  In y (insert_sorted x l) <-> y = x \/ In y l.
Proof.
  induction l as [|z l IH]; simpl.
  - intuition.
  - destruct (order_le x z); simpl; rewrite ?IH; intuition.
Qed.

Lemma sort_by_order_In (y : followup) (l : list followup) :
  In y (sort_by_order l) <-> In y l.
Proof.
  induction l as [|x l IH]; simpl.
  - tauto.
  - rewrite insert_sorted_In, IH. intuition.
Qed.

Lemma insert_sorted_length (x : followup) (l : list followup) :
  List.length (insert_sorted x l) = S (List.length l).
Proof.
  induction l as [|z l IH]; simpl; [reflexivity|].
  destruct (order_le x z); simpl; [reflexivity | now rewrite IH].
Qed.

Lemma sort_by_order_length (l : list followup) :
  List.length (sort_by_order l) = List.length l.
Proof.
  induction l as [|x l IH]; simpl; [reflexivity|].
  now rewrite insert_sorted_length, IH.
Qed.

Lemma insert_sorted_in_order (x : followup) (l : list followup) :
  listed_in_order l -> listed_in_order (insert_sorted x l).
Proof.
  unfold listed_in_order.
  induction 1 as [|z l Hl IH Hz]; simpl.
  - constructor; constructor.
  - destruct (order_le x z) eqn:Hxz.
    + constructor; [constructor; assumption|].
      constructor; [exact Hxz|].
      rewrite Forall_forall in *. intros w Hw.
      apply (order_le_trans x z w Hxz). now apply Hz.
    + constructor; [exact IH|].
      rewrite Forall_forall in *. intros w Hw.
      apply insert_sorted_In in Hw. destruct Hw as [-> | Hw].
      * now apply order_le_total.
      * now apply Hz.
Qed.

Lemma sort_by_order_in_order (l : list followup) :
  listed_in_order (sort_by_order l).
Proof.
  induction l as [|x l IH]; simpl.
  - constructor.
  - now apply insert_sorted_in_order.
Qed.

(** A row that is listed before every row of [l] is inserted in front. *)
Lemma insert_sorted_front (x : followup) (l : list followup) :
  Forall (fun w => order_le x w = true) l ->
  insert_sorted x l = x :: l.
Proof.
  destruct 1 as [|z l Hz _]; simpl; [reflexivity|].
  now rewrite Hz.
Qed.

Lemma filter_insert_sorted (p : followup -> bool) (x : followup)
    (l : list followup) :
  listed_in_order l ->
  filter p (insert_sorted x l)
  = (if p x then insert_sorted x (filter p l) else filter p l).
Proof.
  unfold listed_in_order.
  induction 1 as [|z l Hl IH Hz]; simpl.
  - destruct (p x); reflexivity.
  - destruct (order_le x z) eqn:Hxz; simpl.
    + destruct (p x) eqn:Hpx; [|reflexivity].
      symmetry. apply insert_sorted_front.
      assert (Hall : Forall (fun w => order_le x w = true) (z :: l)).
      { constructor; [exact Hxz|].
        rewrite Forall_forall in *. intros w Hw.
        apply (order_le_trans x z w Hxz). now apply Hz. }
      rewrite Forall_forall in *. intros w Hw.
      apply Hall. apply (proj1 (filter_In p w (z :: l)) Hw).
    + rewrite IH. destruct (p z) eqn:Hpz, (p x) eqn:Hpx; simpl;
        rewrite ?Hxz; reflexivity.
Qed.

(** Selecting rows and ordering them commute. *)
Lemma sort_by_order_filter (p : followup -> bool) (l : list followup) :
  sort_by_order (filter p l) = filter p (sort_by_order l).
Proof.
  induction l as [|x l IH]; simpl; [reflexivity|].
  rewrite filter_insert_sorted by apply sort_by_order_in_order.
  destruct (p x); simpl; now rewrite IH.
Qed.



(** ** Lists *)

Lemma firstn_1_filter_nil {A : Type} (p : A -> bool) (l : list A) :
  firstn 1 (filter p l) = [] <-> existsb p l = false.
Proof.
  induction l as [|x l IH]; simpl.
  - tauto.
  - destruct (p x); simpl.
    + split; discriminate.
    + exact IH.
Qed.

Lemma In_firstn {A : Type} (n : nat) (x : A) (l : list A) :
  In x (firstn n l) -> In x l.
Proof.
  revert l. induction n as [|n IH]; intros [|y l]; simpl; try tauto.
  intros [-> | H]; [now left | right; now apply IH].
Qed.

Lemma In_firstn_S {A : Type} (n : nat) (x : A) (l : list A) :
  In x (firstn n l) -> In x (firstn (S n) l).
Proof.
  revert l. induction n as [|n IH]; intros [|y l]; simpl; try tauto.
  intros [-> | H]; [now left | right; now apply IH].
Qed.

(** A row among the first [n] rows of [l] that satisfies [p] is among the
    first [n] rows of [filter p l]. *)
Lemma In_firstn_filter {A : Type} (p : A -> bool) (n : nat) (x : A)
    (l : list A) :
  In x (firstn n l) -> p x = true -> In x (firstn n (filter p l)).
Proof.
  revert n. induction l as [|y l IH]; intros n Hin Hp.
  - destruct n; simpl in Hin; contradiction.
  - destruct n as [|n]; simpl in Hin; [contradiction|].
    simpl. destruct (p y) eqn:Hpy.
    + simpl. destruct Hin as [-> | Hin]; [now left | right; now apply IH].
    + destruct Hin as [-> | Hin]; [congruence|].
      apply In_firstn_S. now apply IH.
Qed.

(** ** The scan, step by step *)

Lemma overdue_domain_sent_at (c : Z) (f : followup) :
  overdue_domain c f = true ->
  exists t, sent_at f = Some t /\ t <= c
            /\ state f = sent /\ replied_at f = None.
Proof.
  unfold overdue_domain. intro H.
  apply andb_true_iff in H. destruct H as [H Hrep].
  apply andb_true_iff in H. destruct H as [H Hle].
  apply andb_true_iff in H. destruct H as [Hst _].
  destruct (sent_at f) as [t|]; [|discriminate].
  exists t. split; [reflexivity|].
  split; [now apply Z.leb_le|].
  split.
  - destruct (state f); try discriminate; reflexivity.
  - destruct (replied_at f); [discriminate | reflexivity].
Qed.

Lemma overdue_domain_later (c c' : Z) (f : followup) :
  c <= c' -> overdue_domain c f = true -> overdue_domain c' f = true.
Proof.
  unfold overdue_domain, datetime_le. intros Hc H.
  destruct (State_eqb (state f) sent); [|discriminate].
  destruct (sent_at f) as [t|]; [|discriminate].
  destruct (negb (is_set (replied_at f))); [|now rewrite !andb_false_r in H].
  simpl in *. rewrite andb_true_r in *.
  apply Z.leb_le in H. apply Z.leb_le. lia.
Qed.

Lemma batch_overdue (e : env) (f : followup) :
  In f (batch e) ->
  In f (service_followup e)
  /\ overdue_domain (clock e - relativedelta_days 2) f = true.
Proof.
  unfold batch, overdue_rows. intro H.
  apply In_firstn in H. apply (proj1 (sort_by_order_In _ _)) in H.
  now apply (proj1 (filter_In _ _ _)) in H.
Qed.


Lemma batch_sent_at (e : env) :
  Forall (fun f => is_set (sent_at f) = true) (batch e).
Proof.
  apply Forall_forall. intros f Hf.
  destruct (batch_overdue e f Hf) as [_ Hov].
  destruct (overdue_domain_sent_at _ f Hov) as (t & Ht & _).
  now rewrite Ht.
Qed.

(** The search of the scan returns [batch] and leaves the environment. *)
Lemma search_overdue (e : env) :
  search (overdue_domain (clock e - relativedelta_days 2)) 50 e
  = Ok (batch e, e).
Proof. reflexivity. Qed.

(** Resolving the activity type reads two tables and changes nothing. *)
Lemma todo_activity_type_reads (e : env) :
  exists oty, todo_activity_type e = Ok (oty, e)
    /\ forall e', ir_model_data e' = ir_model_data e ->
                  mail_activity_type e' = mail_activity_type e ->
                  todo_activity_type e' = Ok (oty, e').
Proof.
  unfold todo_activity_type, bind, env_ref, search_activity_type, gets, ret.
  destruct (find (fun p => (fst p =? "mail.mail_activity_data_todo")%string)
              (ir_model_data e)) as [[x i]|] eqn:Hd.
  - destruct (find (fun t => type_id t =? i) (mail_activity_type e))
      as [ty|] eqn:Ht.
    + exists (Some ty). split; [reflexivity|].
      intros e' H1 H2. rewrite H1, H2, Hd, Ht. reflexivity.
    + eexists. split; [reflexivity|].
      intros e' H1 H2. rewrite H1, H2, Hd, Ht. cbv beta iota.
      rewrite ?H2. reflexivity.
  - eexists. split; [reflexivity|].
    intros e' H1 H2. rewrite H1, Hd. cbv beta iota.
    rewrite ?H2. reflexivity.
Qed.

Lemma cron_run (e : env) (oty : option activity_type) :
  todo_activity_type e = Ok (oty, e) ->
  cron_followup_reminder e
  = match oty with
    | None => Ok (tt, e)
    | Some ty => for_each (batch e) (remind ty) e
    end.
Proof.
  intro H. unfold cron_followup_reminder.
  unfold bind at 1. unfold Datetime_now, gets.
  unfold bind at 1. rewrite search_overdue.
  unfold bind at 1. rewrite H. destruct oty; reflexivity.
Qed.

Lemma reminder_domain_reminder (ty : activity_type) (f : followup) (t : Z)
    (e : env) :
  reminder_domain f ty (date_of (clock e)) (reminder ty f t e) = true.
Proof.
  unfold reminder_domain, reminder. simpl.
  rewrite !Z.eqb_refl, Z.leb_refl.
  destruct (assigned_user_id f); simpl; rewrite ?Z.eqb_refl; reflexivity.
Qed.

Lemma reminds_reminder (ty : activity_type) (f : followup) (t : Z) (e : env) :
  reminds ty (date_of (clock e)) f (reminder ty f t e).
Proof. repeat split. Qed.

(** One turn of the loop on a row whose [sent_at] is set. *)
Lemma remind_run (ty : activity_type) (f : followup) (t : Z) (e : env) :
  sent_at f = Some t ->
  remind ty f e
  = Ok (tt, if has_reminder ty f e then e
            else add_activity (reminder ty f t e) e).
Proof.
  intro Ht. unfold remind.
  unfold bind at 1. unfold Date_today, gets.
  unfold bind at 1. unfold search_activity, gets.
  unfold has_reminder.
  destruct (existsb (reminder_domain f ty (date_of (clock e)))
              (mail_activity e)) eqn:Hex.
  - destruct (firstn 1 (filter (reminder_domain f ty (date_of (clock e)))
                          (mail_activity e))) eqn:Hf.
    + apply firstn_1_filter_nil in Hf. congruence.
    + reflexivity.
  - apply firstn_1_filter_nil in Hex. rewrite Hex.
    rewrite Ht. reflexivity.
Qed.

Lemma has_reminder_kept (ty : activity_type) (f : followup) (e e' : env)
    (new : list activity) :
  mail_activity e' = mail_activity e ++ new ->
  date_of (clock e') = date_of (clock e) ->
  has_reminder ty f e = true -> has_reminder ty f e' = true.
Proof.
  unfold has_reminder. intros Ha Hc H.
  rewrite Ha, Hc, existsb_app, H. reflexivity.
Qed.

Lemma has_reminder_before (ty : activity_type) (f : followup) (e e' : env)
    (new : list activity) :
  mail_activity e' = mail_activity e ++ new ->
  date_of (clock e') = date_of (clock e) ->
  has_reminder ty f e' = false -> has_reminder ty f e = false.
Proof.
  intros Ha Hc H. destruct (has_reminder ty f e) eqn:Hh; [|reflexivity].
  rewrite (has_reminder_kept ty f e e' new Ha Hc Hh) in H. discriminate.
Qed.

Lemma has_reminder_added (ty : activity_type) (f : followup) (t : Z) (e : env) :
  has_reminder ty f (add_activity (reminder ty f t e) e) = true.
Proof.
  unfold has_reminder. simpl. rewrite existsb_app. simpl.
  rewrite reminder_domain_reminder. simpl. apply orb_true_r.
Qed.

(** The loop of the scan over rows whose [sent_at] is set returns, and its
    effect is [scanned]. *)
Lemma scan_loop (ty : activity_type) (l : list followup) (e : env) :
  Forall (fun f => is_set (sent_at f) = true) l ->
  exists e' new,
    for_each l (remind ty) e = Ok (tt, e') /\ scanned ty l e e' new.
Proof.
  revert e. induction l as [|f l IH]; intros e Hl.
  - exists e, []. split; [reflexivity|].
    constructor; try reflexivity; try constructor.
    now rewrite app_nil_r.
  - inversion Hl as [|f' l' Hf Hl']; subst.
    destruct (sent_at f) as [t|] eqn:Ht; [|discriminate].
    simpl. unfold bind at 1. rewrite (remind_run ty f t e Ht).
    destruct (has_reminder ty f e) eqn:Hh.
    + destruct (IH e Hl') as (e' & new & Hrun & Hs).
      exists e', new. split; [exact Hrun|].
      destruct Hs as [Ha Hc Hfu Hm Hd Hty Hn Hnew Hall].
      constructor; try assumption.
      * simpl. lia.
      * rewrite Forall_forall in *. intros a Hin.
        destruct (Hnew a Hin) as (f0 & Hf0 & Hr & Hno).
        exists f0. split; [now right|]. now split.
      * constructor; [|exact Hall].
        apply (has_reminder_kept ty f e e' new Ha); [now rewrite Hc | exact Hh].
    + destruct (IH (add_activity (reminder ty f t e) e) Hl')
        as (e' & new & Hrun & Hs).
      exists e', (reminder ty f t e :: new). split; [exact Hrun|].
      destruct Hs as [Ha Hc Hfu Hm Hd Hty Hn Hnew Hall].
      simpl in Ha, Hc, Hfu, Hm, Hd, Hty.
      constructor; try assumption.
      * rewrite Ha, <- app_assoc. reflexivity.
      * simpl. lia.
      * constructor.
        -- exists f. split; [now left|].
           split; [apply reminds_reminder | exact Hh].
        -- rewrite Forall_forall in *. intros a Hin.
           destruct (Hnew a Hin) as (f0 & Hf0 & Hr & Hno).
           exists f0. split; [now right|]. split; [exact Hr|].
           apply (has_reminder_before ty f0 e
                    (add_activity (reminder ty f t e) e)
                    [reminder ty f t e]); [reflexivity | reflexivity | exact Hno].
      * constructor; [|exact Hall].
        apply (has_reminder_kept ty f (add_activity (reminder ty f t e) e) e' new Ha);
          [now rewrite Hc | apply has_reminder_added].
Qed.

(** A scan always returns; with an activity type [ty] its effect is that of
    the loop over [batch e], without one it changes nothing. *)
Lemma cron_returns (e : env) :
  exists oty e' new,
    todo_activity_type e = Ok (oty, e)
    /\ cron_followup_reminder e = Ok (tt, e')
    /\ match oty with
       | Some ty => scanned ty (batch e) e e' new
       | None => e' = e /\ new = []
       end.
Proof.
  destruct (todo_activity_type_reads e) as (oty & Hty & _).
  exists oty. rewrite (cron_run e oty Hty). destruct oty as [ty|].
  - destruct (scan_loop ty (batch e) e (batch_sent_at e))
      as (e' & new & Hrun & Hs).
    exists e', new. split; [exact Hty|]. split; [exact Hrun | exact Hs].
  - exists e, []. split; [exact Hty|]. split; [reflexivity|]. now split.
Qed.

Lemma filter_narrow {A : Type} (p q : A -> bool) (l : list A) :
  (forall x, p x = true -> q x = true) ->
  filter p (filter q l) = filter p l.
Proof.
  intro Hpq. induction l as [|x l IH]; simpl; [reflexivity|].
  destruct (q x) eqn:Hq; simpl.
  - now rewrite IH.
  - destruct (p x) eqn:Hp; [|exact IH].
    rewrite (Hpq x Hp) in Hq. discriminate.
Qed.

(** A row in the batch of a later scan over the same table that was already
    overdue at the earlier scan was in the earlier batch. *)
Lemma batch_later (e e' : env) (f : followup) :
  clock e <= clock e' ->
  service_followup e' = service_followup e ->
  In f (batch e') ->
  overdue_domain (clock e - relativedelta_days 2) f = true ->
  In f (batch e).
Proof.
  intros Hc Hf Hin Hov. unfold batch, overdue_rows in *.
  rewrite Hf in Hin.
  apply (In_firstn_filter
           (overdue_domain (clock e - relativedelta_days 2))) in Hin;
    [|exact Hov].
  rewrite <- sort_by_order_filter in Hin.
  rewrite filter_narrow in Hin; [exact Hin|].
  intros x Hx. apply (overdue_domain_later (clock e - relativedelta_days 2));
    [lia | exact Hx].
Qed.

Lemma NoDup_map_eq {A B : Type} (g : A -> B) (l : list A) (a b : A) :
  NoDup (map g l) -> In a l -> In b l -> g a = g b -> a = b.
Proof.
  induction l as [|x l IH]; simpl; intros Hnd Ha Hb Hg; [contradiction|].
  inversion Hnd as [|y m Hnotin Hnd']; subst.
  destruct Ha as [-> | Ha], Hb as [-> | Hb].
  - reflexivity.
  - exfalso. apply Hnotin. rewrite Hg. now apply in_map.
  - exfalso. apply Hnotin. rewrite <- Hg. now apply in_map.
  - now apply IH.
Qed.

(** ** The reminder scan *)

Lemma overdue_batch_NoDup (n : nat) (now : Z) :
  NoDup (map id (overdue_batch n now)).
Proof.
  unfold overdue_batch. rewrite map_map. simpl.
  apply Injective_map_NoDup; [|apply seq_NoDup].
  intros a b H. now apply Nat2Z.inj.
Qed.




(** With 60 overdue follow-ups one scan creates 50 reminders; a second scan
    on the same day reads the same 50 rows and creates none. *)
Example scan_of_60_overdue_followups :
  List.length (overdue_rows (env_of 1700000000 (overdue_batch 60 1700000000)))
  = 60%nat
  /\ created_by cron_followup_reminder
       (env_of 1700000000 (overdue_batch 60 1700000000)) = Some 50%nat
  /\ created_by (cron_followup_reminder ;;; cron_followup_reminder)
       (env_of 1700000000 (overdue_batch 60 1700000000)) = Some 50%nat.
Proof. vm_compute. repeat split. Qed.

(** C10.  In every environment the follow-ups the scan reads all have
    [sent_at] set, so [strftime] on it is defined for each of them, and the
    scan returns: it never raises [AttributeError]. *)
Theorem scan_formats_only_set_sent_at (e : env) :
  exists followups e',
    search (overdue_domain (clock e - relativedelta_days 2)) 50 e
    = Ok (followups, e)
    /\ Forall (fun f => exists t,
                 sent_at f = Some t
                 /\ forall e0, strftime (sent_at f) e0
                               = Ok (format_datetime t, e0)) followups
    /\ cron_followup_reminder e = Ok (tt, e')
    /\ (forall msg, cron_followup_reminder e <> Raise (AttributeError msg)).
Proof.
  destruct (cron_returns e) as (oty & e' & new & Hty & Hrun & _).
  exists (batch e), e'.
  split; [apply search_overdue|].
  split.
  - apply Forall_forall. intros f Hf.
    destruct (batch_overdue e f Hf) as [_ Hov].
    destruct (overdue_domain_sent_at _ f Hov) as (t & Ht & _).
    exists t. split; [exact Ht|]. intro e0. rewrite Ht. reflexivity.
  - split; [exact Hrun|]. intro msg. rewrite Hrun. discriminate.
Qed.

(** C1, as stated, fails in two kinds of state.  With the three follow-ups of
    the claim and no activity type to resolve, the scan creates nothing.
    With the activity type, a first scan creates the reminder of the overdue
    follow-up; in the state it leaves, still exactly that follow-up is
    overdue, and a scan creates nothing. *)
Example scan_creates_no_reminder :
  (overdue_rows (env_without_types 1700000000 (test_rows 1700000000))
   = [followup_overdue 1700000000]
   /\ exists e',
        cron_followup_reminder
          (env_without_types 1700000000 (test_rows 1700000000)) = Ok (tt, e')
        /\ mail_activity e'
           = mail_activity (env_without_types 1700000000 (test_rows 1700000000)))
  /\ exists e1 e2,
       cron_followup_reminder (env_of 1700000000 (test_rows 1700000000))
       = Ok (tt, e1)
       /\ overdue_rows e1 = [followup_overdue 1700000000]
       /\ cron_followup_reminder e1 = Ok (tt, e2)
       /\ mail_activity e2 = mail_activity e1.
Proof.
  split.
  - split; [reflexivity|]. eexists. split; [cbv; reflexivity | reflexivity].
  - eexists; eexists. split; [cbv; reflexivity|]. split; [reflexivity|].
    split; [cbv; reflexivity | reflexivity].
Qed.

(** C1, amended.  In every state where exactly one follow-up [A] is overdue,
    the to-do activity type resolves to [ty] and [A] has no reminder of that
    type for its assignee due today or later, one scan creates exactly one
    reminder: attached to [A], due today, assigned to [A]'s
    [assigned_user_id].  A follow-up [B] sent one day ago and a follow-up [C]
    in state [replied] receive none. *)
Theorem scan_reminds_the_overdue_followup (e : env) (A B C : followup)
    (ty : activity_type) :
  NoDup (map id (service_followup e)) ->
  overdue_rows e = [A] ->
  In B (service_followup e) ->
  state B = sent ->
  sent_at B = Some (clock e - relativedelta_days 1) ->
  In C (service_followup e) ->
  state C = replied ->
  todo_activity_type e = Ok (Some ty, e) ->
  search_activity (reminder_domain A ty (date_of (clock e))) e = Ok ([], e) ->
  exists e' a,
    cron_followup_reminder e = Ok (tt, e')
    /\ mail_activity e' = mail_activity e ++ [a]
    /\ res_model a = "service.followup"%string
    /\ res_id a = id A
    /\ activity_type_id a = type_id ty
    /\ user_id a = assigned_user_id A
    /\ date_deadline a = date_of (clock e)
    /\ res_id a <> id B
    /\ res_id a <> id C
    /\ service_followup e' = service_followup e.
Proof.
  intros Hnd Hrows HB HBst HBat HC HCst Hty Hnone.
  assert (HA : In A (service_followup e)
               /\ overdue_domain (clock e - relativedelta_days 2) A = true).
  { apply filter_In. fold (overdue_rows e). rewrite Hrows. now left. }
  destruct HA as [HA HAov].
  destruct (overdue_domain_sent_at _ A HAov) as (t & Ht & _ & HAst & _).
  assert (Hbatch : batch e = [A]) by (unfold batch; now rewrite Hrows).
  assert (Hno : has_reminder ty A e = false).
  { unfold has_reminder. apply firstn_1_filter_nil.
    unfold search_activity, gets in Hnone. now inversion Hnone. }
  rewrite (cron_run e (Some ty) Hty), Hbatch.
  simpl. unfold bind. rewrite (remind_run ty A t e Ht), Hno.
  exists (add_activity (reminder ty A t e) e), (reminder ty A t e).
  split; [reflexivity|].
  repeat (split; [reflexivity|]).
  assert (Hdiff : forall X, In X (service_followup e) ->
                    overdue_domain (clock e - relativedelta_days 2) X = false ->
                    id A <> id X).
  { intros X HX HXov Hid.
    assert (A = X) by (apply (NoDup_map_eq id (service_followup e)); assumption).
    subst X. congruence. }
  split; [|split; [|reflexivity]]; simpl; apply Hdiff; try assumption.
  - unfold overdue_domain, datetime_le. rewrite HBat.
    assert (Hlate : (clock e - relativedelta_days 1
                     <=? clock e - relativedelta_days 2) = false)
      by (apply Z.leb_gt; unfold relativedelta_days; lia).
    rewrite Hlate. now rewrite !andb_false_r.
  - unfold overdue_domain. rewrite HCst. reflexivity.
Qed.

Lemma scan_reminds_the_overdue_followup_witness :
  exists e' a,
    cron_followup_reminder (env_of 1700000000 (test_rows 1700000000))
    = Ok (tt, e')
    /\ mail_activity e'
       = mail_activity (env_of 1700000000 (test_rows 1700000000)) ++ [a]
    /\ res_model a = "service.followup"%string
    /\ res_id a = id (followup_overdue 1700000000)
    /\ activity_type_id a = type_id todo_type
    /\ user_id a = assigned_user_id (followup_overdue 1700000000)
    /\ date_deadline a
       = date_of (clock (env_of 1700000000 (test_rows 1700000000)))
    /\ res_id a <> id (followup_recent 1700000000)
    /\ res_id a <> id (followup_replied 1700000000)
    /\ service_followup e'
       = service_followup (env_of 1700000000 (test_rows 1700000000)).
Proof.
  apply (scan_reminds_the_overdue_followup
           (env_of 1700000000 (test_rows 1700000000))
           (followup_overdue 1700000000) (followup_recent 1700000000)
           (followup_replied 1700000000) todo_type).
  - simpl. repeat constructor; simpl; intuition discriminate.
  - reflexivity.
  - simpl. tauto.
  - reflexivity.
  - reflexivity.
  - simpl. tauto.
  - reflexivity.
  - reflexivity.
  - reflexivity.
Defined.

(** C2, as stated, fails: a follow-up sent one second less than two days
    before the first scan is not overdue then, and is overdue one second
    later.  The second scan, on the same day and with no follow-up changed,
    creates its reminder. *)
Example second_scan_creates_a_reminder :
  exists e1 e2 a,
    cron_followup_reminder
      (env_of 1700000000
         [followup_overdue 1700000000; followup_almost_overdue 1700000000])
    = Ok (tt, e1)
    /\ date_of 1700000001 = date_of 1700000000
    /\ service_followup (set_clock 1700000001 e1)
       = [followup_overdue 1700000000; followup_almost_overdue 1700000000]
    /\ cron_followup_reminder (set_clock 1700000001 e1) = Ok (tt, e2)
    /\ mail_activity e2 = mail_activity e1 ++ [a]
    /\ res_id a = id (followup_almost_overdue 1700000000).
Proof.
  eexists; eexists; eexists.
  split; [cbv; reflexivity|]. split; [reflexivity|]. split; [reflexivity|].
  split; [cbv; reflexivity|]. split; reflexivity.
Qed.

(** C2, amended.  Let a scan be followed by a second one, with no follow-up
    changed and the clock at [t'], not earlier and on the same day.  Both
    return, and every reminder the second one creates is for a follow-up
    that was not overdue at the first scan and is overdue at the second.
    So the second scan creates no reminder for a follow-up that was overdue
    at the first, and none at all when no follow-up became overdue in
    between, as when the clock reads the same. *)
Theorem second_scan_reminds_only_newly_overdue (e : env) (t' : Z) :
  clock e <= t' ->
  date_of t' = date_of (clock e) ->
  exists e1 e2 extra,
    cron_followup_reminder e = Ok (tt, e1)
    /\ service_followup e1 = service_followup e
    /\ cron_followup_reminder (set_clock t' e1) = Ok (tt, e2)
    /\ mail_activity e2 = mail_activity e1 ++ extra
    /\ Forall (fun a =>
         exists f, In f (service_followup e)
           /\ res_id a = id f
           /\ overdue_domain (clock e - relativedelta_days 2) f = false
           /\ overdue_domain (t' - relativedelta_days 2) f = true) extra
    /\ ((forall f, In f (service_followup e) ->
           overdue_domain (t' - relativedelta_days 2) f = true ->
           overdue_domain (clock e - relativedelta_days 2) f = true) ->
        extra = [])
    /\ (t' = clock e -> extra = []).
Proof.
  intros Hclock Hday.
  assert (Hmain : exists e1 e2 extra,
    cron_followup_reminder e = Ok (tt, e1)
    /\ service_followup e1 = service_followup e
    /\ cron_followup_reminder (set_clock t' e1) = Ok (tt, e2)
    /\ mail_activity e2 = mail_activity e1 ++ extra
    /\ Forall (fun a =>
         exists f, In f (service_followup e)
           /\ res_id a = id f
           /\ overdue_domain (clock e - relativedelta_days 2) f = false
           /\ overdue_domain (t' - relativedelta_days 2) f = true) extra).
  { destruct (todo_activity_type_reads e) as (oty & Hty & Hext).
    rewrite (cron_run e oty Hty). destruct oty as [ty|].
    - destruct (scan_loop ty (batch e) e (batch_sent_at e))
        as (e1 & new1 & Hrun1 & Hs1).
      destruct Hs1 as [Ha1 Hc1 Hfu1 Hm1 Hd1 Ht1 Hn1 Hnew1 Hall1].
      assert (Hty2 : todo_activity_type (set_clock t' e1)
                     = Ok (Some ty, set_clock t' e1))
        by (apply Hext; simpl; assumption).
      destruct (scan_loop ty (batch (set_clock t' e1)) (set_clock t' e1)
                  (batch_sent_at _)) as (e2 & new2 & Hrun2 & Hs2).
      destruct Hs2 as [Ha2 Hc2 Hfu2 Hm2 Hd2 Ht2 Hn2 Hnew2 Hall2].
      exists e1, e2, new2.
      split; [exact Hrun1|]. split; [exact Hfu1|].
      split; [rewrite (cron_run _ _ Hty2); exact Hrun2|].
      split; [exact Ha2|].
      rewrite Forall_forall in *. intros a Hin.
      destruct (Hnew2 a Hin) as (f & Hf & Hr & Hno).
      destruct (batch_overdue _ f Hf) as [Hftab Hfov].
      simpl in Hftab, Hfov. rewrite Hfu1 in Hftab.
      exists f. split; [exact Hftab|]. split; [apply Hr|].
      split; [|exact Hfov].
      destruct (overdue_domain (clock e - relativedelta_days 2) f) eqn:Hov;
        [|reflexivity].
      exfalso.
      assert (Hfb : In f (batch e)).
      { apply (batch_later e (set_clock t' e1) f); simpl; assumption. }
      pose proof (Hall1 f Hfb) as Hhas.
      assert (Hhas' : has_reminder ty f (set_clock t' e1) = true).
      { apply (has_reminder_kept ty f e1 (set_clock t' e1) []); simpl.
        - now rewrite app_nil_r.
        - now rewrite Hday, Hc1.
        - exact Hhas. }
      congruence.
    - exists e, (set_clock t' e), [].
      split; [reflexivity|]. split; [reflexivity|].
      assert (Hty2 : todo_activity_type (set_clock t' e)
                     = Ok (None, set_clock t' e))
        by (apply Hext; reflexivity).
      split; [now rewrite (cron_run _ _ Hty2)|].
      split; [simpl; now rewrite app_nil_r | constructor]. }
  destruct Hmain as (e1 & e2 & extra & H1 & H2 & H3 & H4 & H5).
  exists e1, e2, extra.
  repeat (split; [assumption|]).
  assert (Hnone : (forall f, In f (service_followup e) ->
                     overdue_domain (t' - relativedelta_days 2) f = true ->
                     overdue_domain (clock e - relativedelta_days 2) f = true) ->
                  extra = []).
  { intro Hsame. destruct extra as [|a extra]; [reflexivity|].
    inversion H5 as [|a' l' (f & Hf & _ & Hov & Hov') _]; subst.
    rewrite (Hsame f Hf Hov') in Hov. discriminate. }
  split; [exact Hnone|].
  intro Heq. apply Hnone. intros f _ Hov. now rewrite <- Heq.
Qed.

Lemma second_scan_reminds_only_newly_overdue_witness :
  exists e1 e2 extra,
    cron_followup_reminder (env_of 1700000000 (test_rows 1700000000))
    = Ok (tt, e1)
    /\ service_followup e1
       = service_followup (env_of 1700000000 (test_rows 1700000000))
    /\ cron_followup_reminder (set_clock 1700000001 e1) = Ok (tt, e2)
    /\ mail_activity e2 = mail_activity e1 ++ extra
    /\ Forall (fun a =>
         exists f,
           In f (service_followup (env_of 1700000000 (test_rows 1700000000)))
           /\ res_id a = id f
           /\ overdue_domain
                (clock (env_of 1700000000 (test_rows 1700000000))
                 - relativedelta_days 2) f = false
           /\ overdue_domain (1700000001 - relativedelta_days 2) f = true)
         extra
    /\ ((forall f,
           In f (service_followup (env_of 1700000000 (test_rows 1700000000))) ->
           overdue_domain (1700000001 - relativedelta_days 2) f = true ->
           overdue_domain
             (clock (env_of 1700000000 (test_rows 1700000000))
              - relativedelta_days 2) f = true) ->
        extra = [])
    /\ (1700000001 = clock (env_of 1700000000 (test_rows 1700000000)) ->
        extra = []).
Proof.
  apply (second_scan_reminds_only_newly_overdue
           (env_of 1700000000 (test_rows 1700000000)) 1700000001).
  - simpl. lia.
  - reflexivity.
Defined.

(** ** The actions on recordsets and in sequence *)

Lemma same_details_refl (r : followup) : same_details r r.
Proof. repeat split. Qed.

Lemma same_details_trans (r1 r2 r3 : followup) :
  same_details r1 r2 -> same_details r2 r3 -> same_details r1 r3.
Proof.
  unfold same_details.
  intros (A1 & A2 & A3 & A4 & A5 & A6 & A7 & A8)
         (B1 & B2 & B3 & B4 & B5 & B6 & B7 & B8).
  repeat split; congruence.
Qed.

Lemma same_details_written (op : operation) (now : Z) (r : followup) :
  same_details r (assign_all (written op now) r).
Proof. destruct op; repeat split. Qed.


Lemma touches_rating_written (op : operation) (now : Z) :
  touches_rating (written op now) = false.
Proof. destruct op; reflexivity. Qed.

(** One turn of the loop of an action, on an existing record. *)
Lemma action_step (op : operation) (i : Z) (rest : list Z) (e : env)
    (r : followup) :
  browse i e = Some r ->
  action op (i :: rest) e
  = action op rest
      (written_and_posted i (written op (clock e)) (notification op)
         "notification" e).
Proof.
  intro Hb.
  pose proof (write_then_post i (written op (clock e)) (notification op)
                "notification" e r Hb (touches_rating_written op (clock e)))
    as Hw.
  destruct op; simpl in *; unfold action_mark_sent, action_log_reply,
    action_close; simpl for_each; unfold bind at 1.
  - unfold bind at 1. unfold Datetime_now, gets. rewrite Hw. reflexivity.
  - unfold bind at 1. unfold Datetime_now, gets. rewrite Hw. reflexivity.
  - rewrite Hw. reflexivity.
Qed.

Lemma action_nil (op : operation) (e : env) : action op [] e = Ok (tt, e).
Proof. destruct op; reflexivity. Qed.

Lemma run_operation_action (op : operation) (i : Z) :
  run_operation op i = action op [i].
Proof. destruct op; reflexivity. Qed.




(** The effect of a sequence of operations on one existing record. *)
Lemma run_operations_effect (ops : list operation) (i : Z) (e : env)
    (r : followup) :
  browse i e = Some r ->
  exists e' r',
    run_operations ops i e = Ok (tt, e')
    /\ browse i e' = Some r'
    /\ same_details r r'
    /\ (is_set (sent_at r) = true -> is_set (sent_at r') = true)
    /\ (is_set (replied_at r) = true -> is_set (replied_at r') = true)
    /\ mail_activity e' = mail_activity e
    /\ mail_message e'
       = mail_message e
         ++ map (fun op => mkMessage i (notification op) "notification") ops
    /\ (forall j, j <> i -> browse j e' = browse j e)
    /\ clock e' = clock e.
Proof.
  revert e r. induction ops as [|op ops IH]; intros e r Hb.
  - exists e, r. split; [reflexivity|]. split; [exact Hb|].
    split; [apply same_details_refl|]. split; [tauto|]. split; [tauto|].
    split; [reflexivity|]. split; [simpl; now rewrite app_nil_r|].
    split; reflexivity.
  - set (e1 := written_and_posted i (written op (clock e)) (notification op)
                 "notification" e).
    assert (Hstep : run_operation op i e = Ok (tt, e1)).
    { rewrite run_operation_action, (action_step op i [] e r Hb).
      apply action_nil. }
    pose proof (browse_written_and_posted i (written op (clock e))
                  (notification op) "notification" e r Hb) as Hb1.
    fold e1 in Hb1.
    destruct (IH e1 _ Hb1)
      as (e' & r' & Hrun & Hb' & Hd & Hs & Hr & Ha & Hm & Ho & Hc).
    exists e', r'. split.
    { unfold run_operations in *. simpl. unfold bind. rewrite Hstep. exact Hrun. }
    split; [exact Hb'|].
    split; [exact (same_details_trans _ _ _
                     (same_details_written op (clock e) r) Hd)|].
    split; [intro H; apply Hs; destruct op; simpl; auto|].
    split; [intro H; apply Hr; destruct op; simpl; auto|].
    split; [exact Ha|].
    split; [rewrite Hm; unfold e1; simpl; now rewrite <- app_assoc|].
    split; [|exact Hc].
    intros j Hj. rewrite (Ho j Hj). unfold e1.
    now apply browse_written_and_posted_other.
Qed.

(** X1.  On an existing follow-up, [action_log_reply] returns and leaves the
    record with [state = replied] and [replied_at] at the clock reading;
    [sent_at] and the other fields are as before, and so are the other
    follow-ups and the activities. *)
Theorem action_log_reply_sets_replied (e : env) (i : Z) (r : followup) :
  browse i e = Some r ->
  exists e' r',
    action_log_reply [i] e = Ok (tt, e')
    /\ browse i e' = Some r'
    /\ state r' = replied
    /\ replied_at r' = Some (clock e)
    /\ sent_at r' = sent_at r
    /\ same_details r r'
    /\ (forall j, j <> i -> browse j e' = browse j e)
    /\ mail_activity e' = mail_activity e.
Proof.
  intro Hb. rewrite (action_log_reply_single i e r Hb).
  eexists; eexists. split; [reflexivity|].
  split; [apply browse_written_and_posted; exact Hb|].
  split; [reflexivity|]. split; [reflexivity|]. split; [reflexivity|].
  split; [repeat split|].
  split; [|reflexivity].
  intros j Hj. now apply browse_written_and_posted_other.
Qed.

Lemma action_log_reply_sets_replied_witness :
  exists e' r',
    action_log_reply [1] (env_of 1700000000 (test_rows 1700000000))
    = Ok (tt, e')
    /\ browse 1 e' = Some r'
    /\ state r' = replied
    /\ replied_at r'
       = Some (clock (env_of 1700000000 (test_rows 1700000000)))
    /\ sent_at r' = sent_at (followup_overdue 1700000000)
    /\ same_details (followup_overdue 1700000000) r'
    /\ (forall j, j <> 1 ->
          browse j e' = browse j (env_of 1700000000 (test_rows 1700000000)))
    /\ mail_activity e'
       = mail_activity (env_of 1700000000 (test_rows 1700000000)).
Proof.
  apply (action_log_reply_sets_replied
           (env_of 1700000000 (test_rows 1700000000)) 1
           (followup_overdue 1700000000)).
  reflexivity.
Defined.

(** X2.  The chatter is append-only: a sequence of operations on an existing
    follow-up returns and adds, after the messages already there, exactly one
    notification per operation, in the order of the calls, each with the
    fixed text of its action; it creates no activity. *)
Theorem operations_post_one_notification_each (e : env) (i : Z)
    (r : followup) (ops : list operation) :
  browse i e = Some r ->
  exists e',
    run_operations ops i e = Ok (tt, e')
    /\ mail_message e'
       = mail_message e
         ++ map (fun op => mkMessage i (notification op) "notification") ops
    /\ mail_activity e' = mail_activity e.
Proof.
  intro Hb.
  destruct (run_operations_effect ops i e r Hb)
    as (e' & r' & Hrun & _ & _ & _ & _ & Ha & Hm & _).
  exists e'. split; [exact Hrun|]. split; [exact Hm | exact Ha].
Qed.

Lemma operations_post_one_notification_each_witness :
  exists e',
    run_operations [markSent; markSent; logReply; close] 7
      (env_of 1700000000 [closed_followup]) = Ok (tt, e')
    /\ mail_message e'
       = mail_message (env_of 1700000000 [closed_followup])
         ++ map (fun op => mkMessage 7 (notification op) "notification")
              [markSent; markSent; logReply; close]
    /\ mail_activity e' = mail_activity (env_of 1700000000 [closed_followup]).
Proof.
  apply (operations_post_one_notification_each
           (env_of 1700000000 [closed_followup]) 7 closed_followup
           [markSent; markSent; logReply; close]).
  reflexivity.
Defined.

(** X3.  The workflow of the module's state test: on an existing follow-up,
    [action_mark_sent] at [t1], then [action_log_reply] at [t2], then
    [action_close] at [t3] all return, and leave [state = closed],
    [sent_at = t1], [replied_at = t2] and the other fields as they were. *)
Theorem state_flow (e : env) (i : Z) (r : followup) (t1 t2 t3 : Z) :
  browse i e = Some r ->
  exists e' r',
    (at_time t1 (action_mark_sent [i]) ;;;
     at_time t2 (action_log_reply [i]) ;;;
     at_time t3 (action_close [i])) e = Ok (tt, e')
    /\ browse i e' = Some r'
    /\ state r' = closed
    /\ sent_at r' = Some t1
    /\ replied_at r' = Some t2
    /\ same_details r r'.
Proof.
  intro Hb. unfold at_time, modify.
  unfold bind at 1. unfold bind at 1.
  rewrite (action_mark_sent_single i (set_clock t1 e) r Hb).
  pose proof (browse_written_and_posted i
                [Set_state sent; Set_sent_at (Some (clock (set_clock t1 e)))]
                "Follow-up marked as sent." "notification"
                (set_clock t1 e) r Hb) as Hb1.
  set (e1 := written_and_posted i _ _ _ (set_clock t1 e)) in *.
  set (r1 := assign_all _ r) in *.
  unfold bind at 1. unfold bind at 1.
  rewrite (action_log_reply_single i (set_clock t2 e1) r1 Hb1).
  pose proof (browse_written_and_posted i
                [Set_state replied; Set_replied_at (Some (clock (set_clock t2 e1)))]
                "Customer reply logged." "notification"
                (set_clock t2 e1) r1 Hb1) as Hb2.
  set (e2 := written_and_posted i _ _ _ (set_clock t2 e1)) in *.
  set (r2 := assign_all _ r1) in *.
  unfold bind at 1.
  rewrite (action_close_single i (set_clock t3 e2) r2 Hb2).
  eexists; eexists. split; [reflexivity|].
  split; [apply browse_written_and_posted; exact Hb2|].
  repeat split.
Qed.

Lemma state_flow_witness :
  exists e' r',
    (at_time 1700000000 (action_mark_sent [1]) ;;;
     at_time 1700003600 (action_log_reply [1]) ;;;
     at_time 1700007200 (action_close [1]))
      (env_of 1699990000 (test_rows 1699990000)) = Ok (tt, e')
    /\ browse 1 e' = Some r'
    /\ state r' = closed
    /\ sent_at r' = Some 1700000000
    /\ replied_at r' = Some 1700003600
    /\ same_details (followup_overdue 1699990000) r'.
Proof.
  apply (state_flow (env_of 1699990000 (test_rows 1699990000)) 1
           (followup_overdue 1699990000) 1700000000 1700003600 1700007200).
  reflexivity.
Defined.



(** X5.  No workflow operation writes anything but [state], [sent_at] and
    [replied_at], and none clears a timestamp: after any sequence of
    operations on an existing follow-up its id, subject, customer,
    appointment date, assignee, rating, feedback and summary are as before,
    a [sent_at] or [replied_at] that was set is still set, and the other
    follow-ups are untouched. *)
Theorem operations_keep_details_and_timestamps (e : env) (i : Z)
    (r : followup) (ops : list operation) :
  browse i e = Some r ->
  exists e' r',
    run_operations ops i e = Ok (tt, e')
    /\ browse i e' = Some r'
    /\ same_details r r'
    /\ (is_set (sent_at r) = true -> is_set (sent_at r') = true)
    /\ (is_set (replied_at r) = true -> is_set (replied_at r') = true)
    /\ (forall j, j <> i -> browse j e' = browse j e).
Proof.
  intro Hb.
  destruct (run_operations_effect ops i e r Hb)
    as (e' & r' & Hrun & Hb' & Hd & Hs & Hr & _ & _ & Ho & _).
  exists e', r'. repeat (split; [assumption|]). exact Ho.
Qed.

Lemma operations_keep_details_and_timestamps_witness :
  exists e' r',
    run_operations [close; markSent; logReply; markSent] 7
      (env_of 1700000000 [closed_followup]) = Ok (tt, e')
    /\ browse 7 e' = Some r'
    /\ same_details closed_followup r'
    /\ (is_set (sent_at closed_followup) = true -> is_set (sent_at r') = true)
    /\ (is_set (replied_at closed_followup) = true ->
        is_set (replied_at r') = true)
    /\ (forall j, j <> 7 ->
          browse j e' = browse j (env_of 1700000000 [closed_followup])).
Proof.
  apply (operations_keep_details_and_timestamps
           (env_of 1700000000 [closed_followup]) 7 closed_followup
           [close; markSent; logReply; markSent]).
  reflexivity.
Defined.

(** X6.  A follow-up that has a reply date is never selected by the scan
    again, whatever operations follow: after any sequence of operations (a
    new [action_mark_sent] included) its [replied_at] is still set, so it
    satisfies the scan's domain for no cutoff and is in no batch. *)
Theorem replied_followup_is_never_overdue (e : env) (i : Z) (r : followup)
    (ops : list operation) :
  browse i e = Some r ->
  is_set (replied_at r) = true ->
  exists e' r',
    run_operations ops i e = Ok (tt, e')
    /\ browse i e' = Some r'
    /\ (forall cutoff, overdue_domain cutoff r' = false)
    /\ (forall e2, ~ In r' (batch e2)).
Proof.
  intros Hb Hrep.
  destruct (run_operations_effect ops i e r Hb)
    as (e' & r' & Hrun & Hb' & _ & _ & Hr & _).
  exists e', r'. split; [exact Hrun|]. split; [exact Hb'|].
  assert (Hnever : forall cutoff, overdue_domain cutoff r' = false).
  { intro c. unfold overdue_domain. rewrite (Hr Hrep). simpl.
    apply andb_false_r. }
  split; [exact Hnever|].
  intros e2 Hin. destruct (batch_overdue e2 r' Hin) as [_ Hov].
  rewrite Hnever in Hov. discriminate.
Qed.

Lemma replied_followup_is_never_overdue_witness :
  exists e' r',
    run_operations [markSent] 3 (env_of 1700000000 (test_rows 1700000000))
    = Ok (tt, e')
    /\ browse 3 e' = Some r'
    /\ (forall cutoff, overdue_domain cutoff r' = false)
    /\ (forall e2, ~ In r' (batch e2)).
Proof.
  apply (replied_followup_is_never_overdue
           (env_of 1700000000 (test_rows 1700000000)) 3
           (followup_replied 1700000000) [markSent]).
  - reflexivity.
  - reflexivity.
Defined.

(** X7.  [_check_rating_range] on a recordset returns exactly when every
    record has a rating between 1 and 10; otherwise it raises
    [ValidationError] with the fixed message.  A record whose rating was
    never written counts as out of range (it reads as 0). *)
Theorem check_rating_range_decides (self : list followup) :
  (_check_rating_range self = Ok tt
   /\ Forall (fun r => match rating r with
                       | Some z => 1 <= z <= 10
                       | None => False
                       end) self)
  \/ (_check_rating_range self
      = Raise (ValidationError "Rating must be between 1 and 10.")
      /\ Exists (fun r => match rating r with
                          | Some z => z < 1 \/ z > 10
                          | None => True
                          end) self).
Proof.
  induction self as [|r rest IH].
  - left. split; [reflexivity | constructor].
  - simpl. unfold read_rating, convert_to_record, rating_out_of_range.
    destruct (rating r) as [z|] eqn:Hr; simpl.
    + destruct (z <? 1) eqn:H1; simpl.
      * right. split; [reflexivity|]. apply Exists_cons_hd. rewrite Hr.
        left. now apply Z.ltb_lt.
      * destruct (z >? 10) eqn:H2.
        -- right. split; [reflexivity|]. apply Exists_cons_hd. rewrite Hr.
           right. rewrite Z.gtb_ltb in H2. apply Z.ltb_lt in H2. lia.
        -- apply Z.ltb_ge in H1. rewrite Z.gtb_ltb in H2. apply Z.ltb_ge in H2.
           destruct IH as [[Hok Hall] | [Hbad Hex]].
           ++ left. split; [exact Hok|]. constructor; [|exact Hall].
              rewrite Hr. lia.
           ++ right. split; [exact Hbad|]. now apply Exists_cons_tl.
    + right. split; [reflexivity|]. apply Exists_cons_hd. now rewrite Hr.
Qed.

(** ** More on the search order and the batch *)

Lemma insert_sorted_Permutation (x : followup) (l : list followup) :
  Permutation (insert_sorted x l) (x :: l).
Proof.
  induction l as [|y l IH]; simpl.
  - apply Permutation_refl.
  - destruct (order_le x y).
    + apply Permutation_refl.
    + apply (Permutation_trans (perm_skip y IH)). apply perm_swap.
Qed.

Lemma sort_by_order_Permutation (l : list followup) :
  Permutation (sort_by_order l) l.
Proof.
  induction l as [|x l IH]; simpl.
  - apply Permutation_refl.
  - apply (Permutation_trans (insert_sorted_Permutation x _)).
    now apply perm_skip.
Qed.

Lemma NoDup_map_filter {A B : Type} (g : A -> B) (p : A -> bool) (l : list A) :
  NoDup (map g l) -> NoDup (map g (filter p l)).
Proof.
  induction l as [|x l IH]; simpl; intro H; [constructor|].
  inversion H as [|y m Hnotin Hnd]; subst.
  destruct (p x); simpl; [|now apply IH].
  constructor; [|now apply IH].
  intro Hin. apply Hnotin.
  apply in_map_iff in Hin. destruct Hin as (z & Hz & Hzin).
  apply in_map_iff. exists z. split; [exact Hz|].
  now apply (proj1 (filter_In p z l)) in Hzin.
Qed.

Lemma NoDup_map_firstn {A B : Type} (g : A -> B) (n : nat) (l : list A) :
  NoDup (map g l) -> NoDup (map g (firstn n l)).
Proof.
  revert l. induction n as [|n IH]; intros [|x l] H; simpl; try constructor.
  - inversion H as [|y m Hnotin Hnd]; subst.
    intro Hin. apply Hnotin.
    apply in_map_iff in Hin. destruct Hin as (z & Hz & Hzin).
    apply in_map_iff. exists z. split; [exact Hz|]. now apply In_firstn in Hzin.
  - inversion H; subst. now apply IH.
Qed.

(** Follow-ups with distinct ids give a batch with distinct ids. *)
Lemma batch_NoDup (e : env) :
  NoDup (map id (service_followup e)) -> NoDup (map id (batch e)).
Proof.
  intro H. unfold batch, overdue_rows.
  apply NoDup_map_firstn.
  apply (Permutation_NoDup
           (Permutation_map id
              (Permutation_sym (sort_by_order_Permutation _)))).
  now apply NoDup_map_filter.
Qed.

Lemma StronglySorted_app_le {A : Type} (R : A -> A -> Prop) (l1 l2 : list A)
    (x y : A) :
  StronglySorted R (l1 ++ l2) -> In x l1 -> In y l2 -> R x y.
Proof.
  induction l1 as [|z l1 IH]; simpl; intros Hs Hx Hy; [contradiction|].
  inversion Hs as [|z' m Hs' Hall]; subst.
  destruct Hx as [-> | Hx].
  - rewrite Forall_forall in Hall. apply Hall. apply in_or_app. now right.
  - now apply IH.
Qed.

Lemma In_id_existsb (g : followup) (l : list followup) :
  In g l -> existsb (fun f => id f =? id g) l = true.
Proof.
  intro H. apply existsb_exists. exists g. split; [exact H | apply Z.eqb_refl].
Qed.

Lemma option_Z_eqb_eq (a b : option Z) : option_Z_eqb a b = true -> a = b.
Proof.
  destruct a, b; simpl; try discriminate; try reflexivity.
  intro H. apply Z.eqb_eq in H. now subst.
Qed.

(** The duplicate check looks at a follow-up's id and assignee only. *)
Lemma has_reminder_ext (ty : activity_type) (f g : followup) (e : env) :
  id f = id g -> assigned_user_id f = assigned_user_id g ->
  has_reminder ty f e = has_reminder ty g e.
Proof.
  intros Hi Hu. unfold has_reminder, reminder_domain. now rewrite Hi, Hu.
Qed.

(** What the loop creates: for each new activity, the follow-up it is for
    and every field but the id of the activity. *)
Lemma scan_loop_made (ty : activity_type) (l : list followup) (e : env) :
  Forall (fun f => is_set (sent_at f) = true) l ->
  exists e' new,
    for_each l (remind ty) e = Ok (tt, e')
    /\ mail_activity e' = mail_activity e ++ new
    /\ Forall (fun a => exists f t k,
                 In f l /\ sent_at f = Some t
                 /\ a = mkActivity k "service.followup" (id f) (type_id ty)
                          ("Follow-up Reminder: " ++ name f)%string
                          ("This follow-up was sent on " ++ format_datetime t
                             ++ " and has not received a reply yet. "
                             ++ "Please check with the customer.")%string
                          (assigned_user_id f) (date_of (clock e))) new
    /\ (NoDup (map id l) -> NoDup (map res_id new)).
Proof.
  revert e. induction l as [|f l IH]; intros e Hl.
  - exists e, []. split; [reflexivity|]. split; [now rewrite app_nil_r|].
    split; constructor.
  - inversion Hl as [|f' l' Hf Hl']; subst.
    destruct (sent_at f) as [t|] eqn:Ht; [|discriminate].
    simpl. unfold bind at 1. rewrite (remind_run ty f t e Ht).
    destruct (has_reminder ty f e) eqn:Hh.
    + destruct (IH e Hl') as (e' & new & Hrun & Ha & Hnew & Hnd).
      exists e', new. split; [exact Hrun|]. split; [exact Ha|]. split.
      * rewrite Forall_forall in *. intros a Hin.
        destruct (Hnew a Hin) as (f0 & t0 & k & Hf0 & Ht0 & Heq).
        exists f0, t0, k. split; [now right|]. now split.
      * intro H. inversion H; subst. now apply Hnd.
    + destruct (IH (add_activity (reminder ty f t e) e) Hl')
        as (e' & new & Hrun & Ha & Hnew & Hnd).
      exists e', (reminder ty f t e :: new). split; [exact Hrun|].
      split; [rewrite Ha; simpl; now rewrite <- app_assoc|]. split.
      * constructor.
        -- exists f, t, (mail_activity_seq e). split; [now left|].
           split; [exact Ht | reflexivity].
        -- rewrite Forall_forall in *. intros a Hin.
           destruct (Hnew a Hin) as (f0 & t0 & k & Hf0 & Ht0 & Heq).
           exists f0, t0, k. split; [now right|]. now split.
      * intro H. inversion H as [|x m Hnotin Hnd']; subst. simpl.
        constructor; [|now apply Hnd].
        intro Hin. apply Hnotin.
        apply in_map_iff in Hin. destruct Hin as (a & Hres & Hain).
        rewrite Forall_forall in Hnew.
        destruct (Hnew a Hain) as (f0 & t0 & k & Hf0 & _ & Heq).
        subst a. simpl in Hres. rewrite <- Hres. now apply in_map.
Qed.

Lemma StronglySorted_firstn {A : Type} (R : A -> A -> Prop) (n : nat)
    (l : list A) :
  StronglySorted R l -> StronglySorted R (firstn n l).
Proof.
  revert l. induction n as [|n IH]; intros [|x l] H; simpl; try constructor.
  - inversion H; subst. now apply IH.
  - inversion H as [|y m Hs Hall]; subst.
    rewrite Forall_forall in *. intros z Hz. apply Hall.
    now apply In_firstn in Hz.
Qed.

Lemma todo_activity_type_cases (e : env) (ty : activity_type) :
  env_ref "mail.mail_activity_data_todo" e = Ok (Some ty, e)
  \/ (env_ref "mail.mail_activity_data_todo" e = Ok (None, e)
      /\ search_activity_type "To Do" e = Ok (Some ty, e)) ->
  todo_activity_type e = Ok (Some ty, e).
Proof.
  unfold todo_activity_type, bind. intros [H | [H1 H2]].
  - rewrite H. reflexivity.
  - rewrite H1. exact H2.
Qed.

(** A scan with the activity type [ty]: what it creates, row by row. *)
Lemma cron_made (e : env) (ty : activity_type) :
  todo_activity_type e = Ok (Some ty, e) ->
  exists e' new,
    cron_followup_reminder e = Ok (tt, e')
    /\ mail_activity e' = mail_activity e ++ new
    /\ Forall (fun a => exists f t k,
                 In f (batch e) /\ sent_at f = Some t
                 /\ a = mkActivity k "service.followup" (id f) (type_id ty)
                          ("Follow-up Reminder: " ++ name f)%string
                          ("This follow-up was sent on " ++ format_datetime t
                             ++ " and has not received a reply yet. "
                             ++ "Please check with the customer.")%string
                          (assigned_user_id f) (date_of (clock e))) new
    /\ (NoDup (map id (batch e)) -> NoDup (map res_id new)).
Proof.
  intro Hty. rewrite (cron_run e (Some ty) Hty).
  apply scan_loop_made. apply batch_sent_at.
Qed.

(** A scan with the activity type [ty] and its duplicate check: afterwards
    every row of the batch has a reminder; a row that had none got a new
    one; for a row that had one no activity was created. *)
Lemma cron_dedup (e : env) (ty : activity_type) :
  todo_activity_type e = Ok (Some ty, e) ->
  exists e' new,
    cron_followup_reminder e = Ok (tt, e')
    /\ mail_activity e' = mail_activity e ++ new
    /\ (forall f, In f (batch e) -> has_reminder ty f e' = true)
    /\ (forall f, In f (batch e) -> has_reminder ty f e = false ->
          exists a, In a new /\ reminds ty (date_of (clock e)) f a)
    /\ (forall f a, has_reminder ty f e = true -> In a new ->
          ~ (res_id a = id f /\ user_id a = assigned_user_id f)).
Proof.
  intro Hty. rewrite (cron_run e (Some ty) Hty).
  destruct (scan_loop ty (batch e) e (batch_sent_at e))
    as (e' & new & Hrun & Hs).
  destruct Hs as [Ha Hc Hfu Hm Hd Ht Hn Hnew Hall].
  rewrite Forall_forall in Hnew, Hall.
  exists e', new. split; [exact Hrun|]. split; [exact Ha|].
  split; [exact Hall|]. split.
  - intros f Hf Hno. pose proof (Hall f Hf) as Hyes.
    unfold has_reminder in Hyes, Hno. rewrite Ha, Hc, existsb_app, Hno in Hyes.
    simpl in Hyes. apply existsb_exists in Hyes.
    destruct Hyes as (a & Hin & Hdom). exists a. split; [exact Hin|].
    destruct (Hnew a Hin) as (f0 & _ & (_ & _ & _ & _ & Hdue) & _).
    unfold reminder_domain in Hdom.
    apply andb_true_iff in Hdom. destruct Hdom as [Hdom _].
    apply andb_true_iff in Hdom. destruct Hdom as [Hdom Hu].
    apply andb_true_iff in Hdom. destruct Hdom as [Hdom Hty'].
    apply andb_true_iff in Hdom. destruct Hdom as [Hmod Hid].
    repeat split.
    + now apply String.eqb_eq.
    + now apply Z.eqb_eq.
    + now apply Z.eqb_eq.
    + now apply option_Z_eqb_eq.
    + exact Hdue.
  - intros f a Hyes Hin [Hid Hu].
    destruct (Hnew a Hin) as (f0 & _ & (_ & Hid0 & _ & Hu0 & _) & Hno0).
    rewrite (has_reminder_ext ty f f0 e) in Hyes by congruence.
    congruence.
Qed.

(** ** More on the reminder scan *)

(** X8.  When neither the XML id nor an activity type named "To Do" can be
    found, the scan returns and leaves the whole environment as it was. *)
Theorem scan_without_activity_type_changes_nothing (e : env) :
  env_ref "mail.mail_activity_data_todo" e = Ok (None, e) ->
  search_activity_type "To Do" e = Ok (None, e) ->
  cron_followup_reminder e = Ok (tt, e).
Proof.
  intros H1 H2.
  assert (Hty : todo_activity_type e = Ok (None, e)).
  { unfold todo_activity_type, bind. rewrite H1. exact H2. }
  now rewrite (cron_run e None Hty).
Qed.

Lemma scan_without_activity_type_changes_nothing_witness :
  cron_followup_reminder (env_without_types 1700000000 (test_rows 1700000000))
  = Ok (tt, env_without_types 1700000000 (test_rows 1700000000)).
Proof.
  apply (scan_without_activity_type_changes_nothing
           (env_without_types 1700000000 (test_rows 1700000000)));
    reflexivity.
Defined.

(** X9.  The activity type of the reminders: the one the XML id
    [mail.mail_activity_data_todo] names when it resolves, and otherwise the
    first activity type named "To Do".  Every reminder a scan creates carries
    the id of that type. *)
Theorem scan_uses_the_resolved_type (e : env) (ty : activity_type) :
  env_ref "mail.mail_activity_data_todo" e = Ok (Some ty, e)
  \/ (env_ref "mail.mail_activity_data_todo" e = Ok (None, e)
      /\ search_activity_type "To Do" e = Ok (Some ty, e)) ->
  exists e' new,
    cron_followup_reminder e = Ok (tt, e')
    /\ mail_activity e' = mail_activity e ++ new
    /\ Forall (fun a => activity_type_id a = type_id ty) new.
Proof.
  intro H.
  destruct (cron_made e ty (todo_activity_type_cases e ty H))
    as (e' & new & Hrun & Ha & Hnew & _).
  exists e', new. split; [exact Hrun|]. split; [exact Ha|].
  rewrite Forall_forall in *. intros a Hin.
  destruct (Hnew a Hin) as (f & t & k & _ & _ & ->). reflexivity.
Qed.

Lemma scan_uses_the_resolved_type_witness :
  exists e' new,
    cron_followup_reminder
      (env_with_named_type 1700000000 (test_rows 1700000000)) = Ok (tt, e')
    /\ mail_activity e'
       = mail_activity (env_with_named_type 1700000000 (test_rows 1700000000))
         ++ new
    /\ Forall (fun a => activity_type_id a
                        = type_id (mkActivityType 9 "To Do")) new.
Proof.
  apply (scan_uses_the_resolved_type
           (env_with_named_type 1700000000 (test_rows 1700000000))
           (mkActivityType 9 "To Do")).
  right. split; reflexivity.
Defined.

(** The calendar date of a day number within the range of [datetime]. *)
Lemma year_of_era (doe : Z) :
  0 <= doe < 146097 ->
  let yoe := (doe - doe / 1460 + doe / 36524 - doe / 146096) / 365 in
  let doy := doe - (365 * yoe + yoe / 4 - yoe / 100) in
  0 <= yoe <= 399 /\ 0 <= doy <= 365
  /\ (306 <= doe -> 1 <= yoe \/ 306 <= doy)
  /\ (doe <= 146036 -> yoe <= 398 \/ doy <= 305).
Proof.
  intros H yoe doy. subst doy yoe.
  Z.to_euclidean_division_equations; lia.
Qed.

Lemma month_of_year (doy : Z) :
  0 <= doy <= 365 ->
  let mp := (5 * doy + 2) / 153 in
  let d := doy - (153 * mp + 2) / 5 + 1 in
  0 <= mp <= 11 /\ 1 <= d <= 31 /\ (doy <= 305 <-> mp <= 9).
Proof.
  intros H mp d. subst d mp.
  Z.to_euclidean_division_equations; lia.
Qed.

Lemma civil_from_days_range (n : Z) :
  -719162 <= n <= 2932896 ->
  let '(y, m, d) := civil_from_days n in
  1 <= y <= 9999 /\ 1 <= m <= 12 /\ 1 <= d <= 31.
Proof.
  intro Hn. unfold civil_from_days.
  set (z := n + 719468).
  set (era := z / 146097).
  set (doe := z - era * 146097).
  assert (Hdoe : 0 <= doe < 146097 /\ 0 <= era <= 24
                 /\ (era = 0 -> 306 <= doe) /\ (era = 24 -> doe <= 146036)).
  { subst doe era z. Z.to_euclidean_division_equations; lia. }
  destruct Hdoe as (Hdoe & Hera & Hlo & Hhi).
  pose proof (year_of_era doe Hdoe) as H1. cbv zeta in H1.
  set (yoe := (doe - doe / 1460 + doe / 36524 - doe / 146096) / 365) in *.
  set (doy := doe - (365 * yoe + yoe / 4 - yoe / 100)) in *.
  destruct H1 as (Hyoe & Hdoy & Hfirst & Hlast).
  pose proof (month_of_year doy Hdoy) as H2. cbv zeta in H2.
  set (mp := (5 * doy + 2) / 153) in *.
  set (d := doy - (153 * mp + 2) / 5 + 1) in *.
  destruct H2 as (Hmp & Hd & Hjan).
  clearbody era doe yoe doy mp d. clear z.
  destruct (Z.ltb_spec mp 10) as [Hlt | Hge].
  - destruct (Z.leb_spec (mp + 3) 2); lia.
  - destruct (Z.leb_spec (mp - 9) 2); lia.
Qed.

(** What [format_datetime] prints for a [datetime]: the fields of its
    calendar date and time of day, each within its range. *)
Lemma format_datetime_fields (t : Z) :
  is_datetime t = true ->
  exists y m d,
    civil_from_days (t / 86400) = (y, m, d)
    /\ 1 <= y <= 9999 /\ 1 <= m <= 12 /\ 1 <= d <= 31
    /\ 0 <= t mod 86400 / 3600 <= 23
    /\ 0 <= t mod 86400 / 60 mod 60 <= 59
    /\ format_datetime t
       = (year_string y ++ "-" ++ pad2 m ++ "-" ++ pad2 d ++ " "
            ++ pad2 (t mod 86400 / 3600) ++ ":"
            ++ pad2 (t mod 86400 / 60 mod 60))%string.
Proof.
  unfold is_datetime, datetime_min, datetime_max. intro H.
  apply andb_true_iff in H. destruct H as [Hlo Hhi].
  apply Z.leb_le in Hlo. apply Z.leb_le in Hhi.
  assert (Hn : -719162 <= t / 86400 <= 2932896)
    by (Z.to_euclidean_division_equations; lia).
  pose proof (civil_from_days_range (t / 86400) Hn) as Hr.
  unfold format_datetime.
  destruct (civil_from_days (t / 86400)) as [[y m] d].
  exists y, m, d. split; [reflexivity|].
  destruct Hr as (Hy & Hm & Hd).
  repeat (split; [assumption|]).
  split; [Z.to_euclidean_division_equations; lia|].
  split; [Z.to_euclidean_division_equations; lia | reflexivity].
Qed.

(** [format_datetime] against the outputs of [strftime('%Y-%m-%d %H:%M')]:
    the epoch and the second before it, the ends of February in leap and
    common years (2000, 1900, 2100), a change of year, the first and the
    last [datetime], and years of fewer than four digits. *)
Example format_datetime_samples :
  format_datetime 1700000000 = "2023-11-14 22:13"%string
  /\ format_datetime 0 = "1970-01-01 00:00"%string
  /\ format_datetime (-1) = "1969-12-31 23:59"%string
  /\ format_datetime 951825900 = "2000-02-29 12:05"%string
  /\ format_datetime (-2203891201) = "1900-02-28 23:59"%string
  /\ format_datetime (-2203891200) = "1900-03-01 00:00"%string
  /\ format_datetime 4107542340 = "2100-02-28 23:59"%string
  /\ format_datetime 4107542400 = "2100-03-01 00:00"%string
  /\ format_datetime 1735689599 = "2024-12-31 23:59"%string
  /\ format_datetime 1735689600 = "2025-01-01 00:00"%string
  /\ format_datetime datetime_max = "9999-12-31 23:59"%string
  /\ format_datetime (-30610224000) = "1000-01-01 00:00"%string
  /\ format_datetime (-30610224001) = "999-12-31 23:59"%string
  /\ format_datetime (-59027086679) = "99-07-04 03:02"%string
  /\ format_datetime datetime_min = "1-01-01 00:00"%string.
Proof. vm_compute. repeat split. Qed.

(** X10.  Every reminder a scan creates is for a follow-up of the table that
    is in state [sent], unanswered and sent at least two days before the
    scan; it refers to the model [service.followup] and that follow-up, its
    summary is "Follow-up Reminder: " followed by the subject, its note
    quotes the follow-up's [sent_at] as [strftime('%Y-%m-%d %H:%M')] prints
    it, its assignee is the follow-up's and it is due on the day of the
    scan.  For a [sent_at] that is a [datetime] the quoted text is the year
    (1 to 9999), the month (01 to 12), the day (01 to 31), the hour (00 to
    23) and the minute (00 to 59) of its calendar date and time. *)
Theorem scan_reminder_content (e : env) :
  exists e' new,
    cron_followup_reminder e = Ok (tt, e')
    /\ mail_activity e' = mail_activity e ++ new
    /\ Forall (fun a => exists f t,
                 In f (service_followup e)
                 /\ state f = sent
                 /\ replied_at f = None
                 /\ sent_at f = Some t
                 /\ t <= clock e - relativedelta_days 2
                 /\ res_model a = "service.followup"%string
                 /\ res_id a = id f
                 /\ summary a = ("Follow-up Reminder: " ++ name f)%string
                 /\ note a
                    = ("This follow-up was sent on " ++ format_datetime t
                         ++ " and has not received a reply yet. "
                         ++ "Please check with the customer.")%string
                 /\ user_id a = assigned_user_id f
                 /\ date_deadline a = date_of (clock e)
                 /\ (is_datetime t = true ->
                     exists y m d,
                       civil_from_days (t / 86400) = (y, m, d)
                       /\ 1 <= y <= 9999 /\ 1 <= m <= 12 /\ 1 <= d <= 31
                       /\ 0 <= t mod 86400 / 3600 <= 23
                       /\ 0 <= t mod 86400 / 60 mod 60 <= 59
                       /\ format_datetime t
                          = (year_string y ++ "-" ++ pad2 m ++ "-" ++ pad2 d
                               ++ " " ++ pad2 (t mod 86400 / 3600) ++ ":"
                               ++ pad2 (t mod 86400 / 60 mod 60))%string))
           new.
Proof.
  destruct (todo_activity_type_reads e) as (oty & Hty & _).
  destruct oty as [ty|].
  - destruct (cron_made e ty Hty) as (e' & new & Hrun & Ha & Hnew & _).
    exists e', new. split; [exact Hrun|]. split; [exact Ha|].
    rewrite Forall_forall in *. intros a Hin.
    destruct (Hnew a Hin) as (f & t & k & Hf & Ht & ->).
    destruct (batch_overdue e f Hf) as [Htab Hov].
    destruct (overdue_domain_sent_at _ f Hov) as (t' & Ht' & Hle & Hst & Hrep).
    assert (t' = t) by congruence. subst t'.
    exists f, t. repeat (split; [assumption || reflexivity|]).
    apply format_datetime_fields.
  - exists e, []. split; [now rewrite (cron_run e None Hty)|].
    split; [now rewrite app_nil_r | constructor].
Qed.

Lemma scan_reminder_content_witness :
  (exists e' new,
     cron_followup_reminder (env_of 1700000000 (test_rows 1700000000))
     = Ok (tt, e')
     /\ mail_activity e'
        = mail_activity (env_of 1700000000 (test_rows 1700000000)) ++ new
     /\ Forall (fun a => exists f t,
                  In f (service_followup
                          (env_of 1700000000 (test_rows 1700000000)))
                  /\ state f = sent
                  /\ replied_at f = None
                  /\ sent_at f = Some t
                  /\ t <= clock (env_of 1700000000 (test_rows 1700000000))
                          - relativedelta_days 2
                  /\ res_model a = "service.followup"%string
                  /\ res_id a = id f
                  /\ summary a = ("Follow-up Reminder: " ++ name f)%string
                  /\ note a
                     = ("This follow-up was sent on " ++ format_datetime t
                          ++ " and has not received a reply yet. "
                          ++ "Please check with the customer.")%string
                  /\ user_id a = assigned_user_id f
                  /\ date_deadline a
                     = date_of (clock (env_of 1700000000
                                         (test_rows 1700000000)))
                  /\ (is_datetime t = true ->
                      exists y m d,
                        civil_from_days (t / 86400) = (y, m, d)
                        /\ 1 <= y <= 9999 /\ 1 <= m <= 12 /\ 1 <= d <= 31
                        /\ 0 <= t mod 86400 / 3600 <= 23
                        /\ 0 <= t mod 86400 / 60 mod 60 <= 59
                        /\ format_datetime t
                           = (year_string y ++ "-" ++ pad2 m ++ "-" ++ pad2 d
                                ++ " " ++ pad2 (t mod 86400 / 3600) ++ ":"
                                ++ pad2 (t mod 86400 / 60 mod 60))%string))
            new)
  /\ notes_created cron_followup_reminder
       (env_of 1700000000 (test_rows 1700000000))
     = Some ["This follow-up was sent on 2023-11-11 22:13 and has not received a reply yet. Please check with the customer."%string]
  /\ notes_created cron_followup_reminder
       (env_of (-30609964801) (test_rows (-30609964801)))
     = Some ["This follow-up was sent on 999-12-31 23:59 and has not received a reply yet. Please check with the customer."%string].
Proof.
  split; [|split].
  - apply (scan_reminder_content (env_of 1700000000 (test_rows 1700000000))).
  - vm_compute. reflexivity.
  - vm_compute. reflexivity.
Defined.

(** X11.  The duplicate check, for a scan with activity type [ty]: after the
    scan every follow-up of the batch has a reminder of that type for its
    assignee due today or later; one that had none before the scan got a new
    one, attached to it, for its assignee and due today; for one that had
    one, the scan created none.  When at most 50 follow-ups are overdue,
    every overdue follow-up has a reminder after the scan. *)
Theorem scan_duplicate_check (e : env) (ty : activity_type) :
  todo_activity_type e = Ok (Some ty, e) ->
  exists e' new,
    cron_followup_reminder e = Ok (tt, e')
    /\ mail_activity e' = mail_activity e ++ new
    /\ (forall f, In f (batch e) -> has_reminder ty f e' = true)
    /\ (forall f, In f (batch e) -> has_reminder ty f e = false ->
          exists a, In a new /\ reminds ty (date_of (clock e)) f a)
    /\ (forall f a, has_reminder ty f e = true -> In a new ->
          ~ (res_id a = id f /\ user_id a = assigned_user_id f))
    /\ ((List.length (overdue_rows e) <= 50)%nat ->
        forall f, In f (overdue_rows e) -> has_reminder ty f e' = true).
Proof.
  intro Hty.
  destruct (cron_dedup e ty Hty) as (e' & new & Hrun & Ha & Hall & Hnone & Hsome).
  exists e', new. repeat (split; [assumption|]).
  intros Hlen f Hf. apply Hall. unfold batch.
  rewrite firstn_all2 by (now rewrite sort_by_order_length).
  now apply sort_by_order_In.
Qed.

Lemma scan_duplicate_check_witness :
  exists e' new,
    cron_followup_reminder (env_of 1700000000 (test_rows 1700000000))
    = Ok (tt, e')
    /\ mail_activity e'
       = mail_activity (env_of 1700000000 (test_rows 1700000000)) ++ new
    /\ (forall f, In f (batch (env_of 1700000000 (test_rows 1700000000))) ->
          has_reminder todo_type f e' = true)
    /\ (forall f, In f (batch (env_of 1700000000 (test_rows 1700000000))) ->
          has_reminder todo_type f
            (env_of 1700000000 (test_rows 1700000000)) = false ->
          exists a, In a new
            /\ reminds todo_type
                 (date_of (clock (env_of 1700000000 (test_rows 1700000000))))
                 f a)
    /\ (forall f a,
          has_reminder todo_type f
            (env_of 1700000000 (test_rows 1700000000)) = true ->
          In a new ->
          ~ (res_id a = id f /\ user_id a = assigned_user_id f))
    /\ ((List.length
           (overdue_rows (env_of 1700000000 (test_rows 1700000000))) <= 50)%nat ->
        forall f,
          In f (overdue_rows (env_of 1700000000 (test_rows 1700000000))) ->
          has_reminder todo_type f e' = true).
Proof.
  apply (scan_duplicate_check (env_of 1700000000 (test_rows 1700000000))
           todo_type).
  reflexivity.
Defined.

(** X12.  When the follow-ups have distinct ids, one scan creates at most
    one reminder per follow-up: the new activities refer to pairwise
    different follow-ups. *)
Theorem scan_creates_one_reminder_per_followup (e : env) :
  NoDup (map id (service_followup e)) ->
  exists e' new,
    cron_followup_reminder e = Ok (tt, e')
    /\ mail_activity e' = mail_activity e ++ new
    /\ NoDup (map res_id new).
Proof.
  intro Hnd. destruct (todo_activity_type_reads e) as (oty & Hty & _).
  destruct oty as [ty|].
  - destruct (cron_made e ty Hty) as (e' & new & Hrun & Ha & _ & Hdistinct).
    exists e', new. split; [exact Hrun|]. split; [exact Ha|].
    apply Hdistinct. now apply batch_NoDup.
  - exists e, []. split; [now rewrite (cron_run e None Hty)|].
    split; [now rewrite app_nil_r | constructor].
Qed.

Lemma scan_creates_one_reminder_per_followup_witness :
  exists e' new,
    cron_followup_reminder
      (env_of 1700000000 (overdue_batch 60 1700000000)) = Ok (tt, e')
    /\ mail_activity e'
       = mail_activity (env_of 1700000000 (overdue_batch 60 1700000000))
         ++ new
    /\ NoDup (map res_id new).
Proof.
  apply (scan_creates_one_reminder_per_followup
           (env_of 1700000000 (overdue_batch 60 1700000000))).
  apply overdue_batch_NoDup.
Defined.

(** X13.  Reminders of earlier days do not hold back today's: when every
    activity in the table is due before the day of the scan, a scan with
    activity type [ty] creates a reminder, due today, for every follow-up of
    its batch.  So a follow-up that stays unanswered is reminded again on
    each day a scan runs. *)
Theorem scan_reminds_again_on_a_later_day (e : env) (ty : activity_type) :
  todo_activity_type e = Ok (Some ty, e) ->
  Forall (fun a => date_deadline a < date_of (clock e)) (mail_activity e) ->
  exists e' new,
    cron_followup_reminder e = Ok (tt, e')
    /\ mail_activity e' = mail_activity e ++ new
    /\ forall f, In f (batch e) ->
         exists a, In a new /\ reminds ty (date_of (clock e)) f a.
Proof.
  intros Hty Hold.
  destruct (cron_dedup e ty Hty) as (e' & new & Hrun & Ha & _ & Hnone & _).
  exists e', new. split; [exact Hrun|]. split; [exact Ha|].
  intros f Hf. apply (Hnone f Hf).
  unfold has_reminder.
  destruct (existsb (reminder_domain f ty (date_of (clock e)))
              (mail_activity e)) eqn:Hex; [|reflexivity].
  apply existsb_exists in Hex. destruct Hex as (a & Hin & Hdom).
  rewrite Forall_forall in Hold. pose proof (Hold a Hin) as Hlt.
  unfold reminder_domain in Hdom.
  apply andb_true_iff in Hdom. destruct Hdom as [_ Hdue].
  apply Z.leb_le in Hdue. lia.
Qed.

Lemma scan_reminds_again_on_a_later_day_witness :
  exists e' new,
    cron_followup_reminder (env_reminded_on 19674 1700000000) = Ok (tt, e')
    /\ mail_activity e'
       = mail_activity (env_reminded_on 19674 1700000000) ++ new
    /\ forall f, In f (batch (env_reminded_on 19674 1700000000)) ->
         exists a, In a new
           /\ reminds todo_type
                (date_of (clock (env_reminded_on 19674 1700000000))) f a.
Proof.
  apply (scan_reminds_again_on_a_later_day
           (env_reminded_on 19674 1700000000) todo_type).
  - reflexivity.
  - repeat constructor.
Defined.

(** The model's order, field by field: [order_le a b] holds when [a] has no
    appointment date and [b] has one, or [a]'s appointment is later than
    [b]'s, or the two are alike in that and [a] has the higher or the same
    id. *)
Lemma order_le_fields (a b : followup) :
  order_le a b = true
  <-> match appointment_date a, appointment_date b with
      | None, None => id b <= id a
      | None, Some _ => True
      | Some _, None => False
      | Some x, Some y => y < x \/ (y = x /\ id b <= id a)
      end.
Proof.
  unfold order_le, date_desc.
  destruct (appointment_date a) as [x|], (appointment_date b) as [y|].
  - destruct (Z.compare_spec y x) as [Heq | Hlt | Hgt].
    + rewrite Z.leb_le. split; [intro; right; now split | intros [H | [_ H]]; [lia | exact H]].
    + split; [intro; now left | reflexivity].
    + split; [discriminate | intros [H | [H _]]; lia].
  - split; [discriminate | contradiction].
  - split; [trivial | reflexivity].
  - apply Z.leb_le.
Qed.

Lemma StronglySorted_impl {A : Type} (R R' : A -> A -> Prop) (l : list A) :
  (forall a b, R a b -> R' a b) ->
  StronglySorted R l -> StronglySorted R' l.
Proof.
  intros Himp. induction 1 as [|x l Hs IH Hall]; constructor.
  - exact IH.
  - rewrite Forall_forall in *. intros y Hy. apply Himp. now apply Hall.
Qed.

(** X14.  Which follow-ups a scan reads when more than 50 are overdue,
    following [_order = 'appointment_date desc, id desc']: a follow-up of the
    batch and an overdue follow-up left out of it compare as follows: the
    one left out has an appointment date and the one read has none, or the
    one read has the later appointment, or the two have the same appointment
    date (or none) and the one read has the higher id.  The batch itself
    is listed that way: follow-ups without an appointment date first, then
    by appointment date, latest first, and by id, highest first, among
    equals. *)
Theorem batch_takes_the_first_in_order (e : env) (f g : followup) :
  In f (batch e) ->
  In g (overdue_rows e) ->
  existsb (fun x => id x =? id g) (batch e) = false ->
  match appointment_date f, appointment_date g with
  | None, None => id g <= id f
  | None, Some _ => True
  | Some _, None => False
  | Some x, Some y => y < x \/ (y = x /\ id g <= id f)
  end
  /\ StronglySorted
       (fun a b => match appointment_date a, appointment_date b with
                   | None, None => id b <= id a
                   | None, Some _ => True
                   | Some _, None => False
                   | Some x, Some y => y < x \/ (y = x /\ id b <= id a)
                   end) (batch e).
Proof.
  intros Hf Hg Hout. split.
  - apply order_le_fields.
    assert (Hsorted : listed_in_order (sort_by_order (overdue_rows e)))
      by apply sort_by_order_in_order.
    unfold listed_in_order in Hsorted.
    rewrite <- (firstn_skipn 50 (sort_by_order (overdue_rows e))) in Hsorted.
    apply (StronglySorted_app_le _ _ _ f g Hsorted); [exact Hf|].
    assert (Hgs : In g (sort_by_order (overdue_rows e)))
      by now apply sort_by_order_In.
    rewrite <- (firstn_skipn 50 (sort_by_order (overdue_rows e))) in Hgs.
    apply in_app_or in Hgs. destruct Hgs as [Hin | Hin]; [|exact Hin].
    rewrite (In_id_existsb g (batch e) Hin) in Hout. discriminate.
  - apply (StronglySorted_impl (fun a b => order_le a b = true)).
    + intros a b. apply order_le_fields.
    + unfold batch. apply StronglySorted_firstn.
      apply sort_by_order_in_order.
Qed.

Lemma batch_takes_the_first_in_order_witness :
  (match appointment_date (dated_row 4 1700000000),
         appointment_date (dated_row 3 1700000000) with
   | None, None => id (dated_row 3 1700000000) <= id (dated_row 4 1700000000)
   | None, Some _ => True
   | Some _, None => False
   | Some x, Some y =>
       y < x \/ (y = x /\ id (dated_row 3 1700000000)
                          <= id (dated_row 4 1700000000))
   end
   /\ StronglySorted
        (fun a b => match appointment_date a, appointment_date b with
                    | None, None => id b <= id a
                    | None, Some _ => True
                    | Some _, None => False
                    | Some x, Some y => y < x \/ (y = x /\ id b <= id a)
                    end)
        (batch (env_of 1700000000 (dated_batch 52 1700000000))))
  /\ map id (batch (env_of 1700000000 (dated_batch 52 1700000000)))
     = 1 :: map Z.of_nat (rev (seq 4 49))
  /\ map id (batch (env_of 1700000000 (overdue_batch 52 1700000000)))
     = map Z.of_nat (rev (seq 3 50)).
Proof.
  split; [|split].
  - apply (batch_takes_the_first_in_order
             (env_of 1700000000 (dated_batch 52 1700000000))
             (dated_row 4 1700000000) (dated_row 3 1700000000)).
    + vm_compute. do 49 right. left. reflexivity.
    + vm_compute. do 2 right. left. reflexivity.
    + vm_compute. reflexivity.
  - vm_compute. reflexivity.
  - vm_compute. reflexivity.
Defined.

(** X15.  A follow-up beyond the cap is not picked up by later scans: when
    ids are distinct and an overdue follow-up [g] is left out of the batch,
    then in every later environment with the same follow-ups, whatever the
    clock and the activities, a scan creates no reminder for [g]. *)
Theorem followup_beyond_the_cap_is_never_reminded (e e0 : env) (g : followup) :
  NoDup (map id (service_followup e)) ->
  In g (overdue_rows e) ->
  existsb (fun x => id x =? id g) (batch e) = false ->
  service_followup e0 = service_followup e ->
  clock e <= clock e0 ->
  exists e' new,
    cron_followup_reminder e0 = Ok (tt, e')
    /\ mail_activity e' = mail_activity e0 ++ new
    /\ Forall (fun a => res_id a <> id g) new.
Proof.
  intros Hnd Hg Hout Htab Hclock.
  destruct (todo_activity_type_reads e0) as (oty & Hty & _).
  destruct oty as [ty|].
  - destruct (cron_made e0 ty Hty) as (e' & new & Hrun & Ha & Hnew & _).
    exists e', new. split; [exact Hrun|]. split; [exact Ha|].
    rewrite Forall_forall in *. intros a Hin Hres.
    destruct (Hnew a Hin) as (f & t & k & Hf & _ & ->). simpl in Hres.
    destruct (batch_overdue e0 f Hf) as [Hftab _]. rewrite Htab in Hftab.
    apply (proj1 (filter_In _ _ _)) in Hg. destruct Hg as [Hgtab Hgov].
    assert (f = g)
      by (apply (NoDup_map_eq id (service_followup e)); assumption).
    subst f.
    pose proof (batch_later e e0 g Hclock Htab Hf Hgov) as Hin0.
    rewrite (In_id_existsb g (batch e) Hin0) in Hout. discriminate.
  - exists e0, []. split; [now rewrite (cron_run e0 None Hty)|].
    split; [now rewrite app_nil_r | constructor].
Qed.

Lemma followup_beyond_the_cap_is_never_reminded_witness :
  exists e' new,
    cron_followup_reminder
      (set_clock 1700864000 (env_of 1700000000 (overdue_batch 51 1700000000)))
    = Ok (tt, e')
    /\ mail_activity e'
       = mail_activity
           (set_clock 1700864000
              (env_of 1700000000 (overdue_batch 51 1700000000))) ++ new
    /\ Forall (fun a => res_id a <> id (bulk_row 1 1700000000)) new.
Proof.
  apply (followup_beyond_the_cap_is_never_reminded
           (env_of 1700000000 (overdue_batch 51 1700000000))
           (set_clock 1700864000
              (env_of 1700000000 (overdue_batch 51 1700000000)))
           (bulk_row 1 1700000000)).
  - apply overdue_batch_NoDup.
  - vm_compute. left. reflexivity.
  - vm_compute. reflexivity.
  - reflexivity.
  - simpl. lia.
Defined.

Lemma browse_In (i : Z) (e : env) (r : followup) :
  browse i e = Some r -> In r (service_followup e).
Proof. intro H. now apply find_some in H. Qed.

(** X16.  The reminder window opens two days after [action_mark_sent]: on
    an existing follow-up without a reply date the action returns, and the
    record it leaves satisfies the scan's domain at clock reading [now]
    exactly when [now] is at least two days (48 hours, boundary included)
    after the clock reading of the action.  The scan's query, which also
    cuts at 50 rows, reads the record only within that window, and does read
    it there whenever at most 50 follow-ups satisfy the domain. *)
Theorem mark_sent_opens_the_two_day_window (e : env) (i : Z) (r : followup) :
  browse i e = Some r ->
  replied_at r = None ->
  exists e' r',
    action_mark_sent [i] e = Ok (tt, e')
    /\ browse i e' = Some r'
    /\ forall now,
         (overdue_domain (now - relativedelta_days 2) r' = true
          <-> clock e + relativedelta_days 2 <= now)
         /\ (In r' (batch (set_clock now e')) ->
             clock e + relativedelta_days 2 <= now)
         /\ (clock e + relativedelta_days 2 <= now ->
             (List.length (overdue_rows (set_clock now e')) <= 50)%nat ->
             In r' (batch (set_clock now e'))).
Proof.
  intros Hb Hrep. rewrite (action_mark_sent_single i e r Hb).
  pose proof (browse_written_and_posted i
                [Set_state sent; Set_sent_at (Some (clock e))]
                "Follow-up marked as sent." "notification" e r Hb) as Hb'.
  set (e' := written_and_posted i _ _ _ e) in *.
  set (r' := assign_all _ r) in *.
  exists e', r'. split; [reflexivity|]. split; [exact Hb'|].
  intro now.
  assert (Hdom : overdue_domain (now - relativedelta_days 2) r' = true
                 <-> clock e + relativedelta_days 2 <= now).
  { split.
    - intro Hov.
      destruct (overdue_domain_sent_at _ _ Hov) as (t & Ht & Hle & _).
      simpl in Ht. inversion Ht; subst. unfold relativedelta_days in *. lia.
    - intro Hle. unfold overdue_domain, datetime_le. simpl. rewrite Hrep. simpl.
      rewrite andb_true_r. apply Z.leb_le. unfold relativedelta_days in *. lia. }
  split; [exact Hdom|]. split.
  - intro Hin. apply Hdom.
    now destruct (batch_overdue (set_clock now e') r' Hin) as [_ Hov].
  - intros Hle Hfew. unfold batch.
    rewrite firstn_all2 by (now rewrite sort_by_order_length).
    apply sort_by_order_In. unfold overdue_rows. apply filter_In.
    split; [exact (browse_In _ _ _ Hb')|].
    now apply Hdom.
Qed.

Lemma mark_sent_opens_the_two_day_window_witness :
  exists e' r',
    action_mark_sent [2] (env_of 1700000000 (test_rows 1700000000))
    = Ok (tt, e')
    /\ browse 2 e' = Some r'
    /\ forall now,
         (overdue_domain (now - relativedelta_days 2) r' = true
          <-> clock (env_of 1700000000 (test_rows 1700000000))
              + relativedelta_days 2 <= now)
         /\ (In r' (batch (set_clock now e')) ->
             clock (env_of 1700000000 (test_rows 1700000000))
             + relativedelta_days 2 <= now)
         /\ (clock (env_of 1700000000 (test_rows 1700000000))
             + relativedelta_days 2 <= now ->
             (List.length (overdue_rows (set_clock now e')) <= 50)%nat ->
             In r' (batch (set_clock now e'))).
Proof.
  apply (mark_sent_opens_the_two_day_window
           (env_of 1700000000 (test_rows 1700000000)) 2
           (followup_recent 1700000000)).
  - reflexivity.
  - reflexivity.
Defined.
